(** * MommyAssist: the risk assessment of the routes module

    A shallow embedding of [assessRisk] and of the
    [POST /api/risk-assessments] handler that calls it, with the
    properties of the rule table proved over the embedding; then of the
    code around them: the queries that read the assessments back, the like
    route of the community feed, and the date and status helpers of the
    client pages.

    Conventions of the embedding.
    - A JavaScript string is a [string]; [includes] is substring search and
      [toLowerCase] maps the letters A-Z to a-z.  (No character outside
      ASCII lower-cases to a letter of the word searched for below, so the
      search result agrees with the Unicode-aware method.)
    - [weight] is a finite JavaScript number, embedded as a rational [Q];
      [pregnancyWeeks] comes from the [integer("pregnancy_weeks")] column
      and is a [Z].  On such operands [0.5 * pregnancyWeeks], the product
      with [1.5] and the comparison are exact in double precision, so the
      rational arithmetic below computes what the code computes.
    - An optional field can be [undefined] (absent), [null] (a column that
      holds NULL, or a JSON null) or [present]. *)

From Stdlib Require Import Ascii String QArith.
From stdpp Require Import gmap strings list fin_maps sorting pretty.

Local Open Scope string_scope.
Set Warnings "-register-all".

(** ** JavaScript values used by the code *)

Inductive optional (A : Type) : Type :=
  | undefined
  | null
  | present (a : A).
Arguments undefined {A}.
Arguments null {A}.
Arguments present {A} a.

Module Js.

(** [c.toLowerCase()] on one ASCII character. *)
Definition lower_ascii (c : ascii) : ascii :=
  let n := nat_of_ascii c in
  if (65 <=? n)%nat && (n <=? 90)%nat then ascii_of_nat (n + 32) else c.

(** [s.toLowerCase()] *)
Fixpoint toLowerCase (s : string) : string :=
  match s with
  | EmptyString => EmptyString
  | String c s' => String (lower_ascii c) (toLowerCase s')
  end.

(** [s.includes(needle)]: does [needle] occur in [s] at some position. *)
Fixpoint includes (s needle : string) : bool :=
  String.prefix needle s
  || match s with
     | EmptyString => false
     | String _ s' => includes s' needle
     end.

(** Truthiness of a string: every string but the empty one. *)
Definition truthy_string (s : string) : bool :=
  negb (String.eqb s "").

(** Truthiness of a number: every number but zero. *)
Definition truthy_number (q : Q) : bool :=
  negb (Qeq_bool q 0).

(** [x > y] on numbers. *)
Definition gt (x y : Q) : bool :=
  negb (Qle_bool x y).

End Js.

(** ** The input and the output of [assessRisk] *)

Record data : Type := mkData {
  bloodPressure : optional string;
  weight : optional Q;
  babyMovement : optional string;
  symptoms : optional string;
  pregnancyWeeks : optional Z
}.

Record RiskResult : Type := mkResult {
  riskLevel : string;
  riskFactors : list string;
  recommendations : string
}.

(** The two local variables the rules update: [riskFactors] (by [push])
    and [riskLevel] (by assignment). *)
Record Locals : Type := mkLocals {
  factors : list string;
  level : string
}.

Definition initial : Locals := mkLocals [] "low".

Definition push (x : string) (l : list string) : list string := l ++ [x].

(** ** The four rules, in source order *)

(** [data.bloodPressure && (data.bloodPressure.includes("high")
     || data.bloodPressure.includes("140"))] *)
Definition bloodPressure_triggers (d : data) : bool :=
  match bloodPressure d with
  | present s =>
      Js.truthy_string s && (Js.includes s "high" || Js.includes s "140")
  | _ => false
  end.

Definition bloodPressure_rule (d : data) (st : Locals) : Locals :=
  if bloodPressure_triggers d
  then mkLocals (push "High blood pressure" (factors st)) "high"
  else st.

(** [data.weight && data.pregnancyWeeks], then
    [data.weight > expectedWeight * 1.5] with
    [expectedWeight = 0.5 * data.pregnancyWeeks]. *)
Definition weight_triggers (d : data) : bool :=
  match weight d, pregnancyWeeks d with
  | present w, present pw =>
      if Js.truthy_number w && Js.truthy_number (inject_Z pw) then
        let expectedWeight := (0.5 * inject_Z pw)%Q in
        Js.gt w (expectedWeight * 1.5)%Q
      else false
  | _, _ => false
  end.

Definition weight_rule (d : data) (st : Locals) : Locals :=
  if weight_triggers d
  then mkLocals (push "Excessive weight gain" (factors st))
                (if String.eqb (level st) "high" then "high" else "medium")
  else st.

(** [data.babyMovement === "reduced"] *)
Definition babyMovement_triggers (d : data) : bool :=
  match babyMovement d with
  | present s => String.eqb s "reduced"
  | _ => false
  end.

Definition babyMovement_rule (d : data) (st : Locals) : Locals :=
  if babyMovement_triggers d
  then mkLocals (push "Reduced fetal movement" (factors st)) "high"
  else st.

(** [data.symptoms && data.symptoms.toLowerCase().includes("bleeding")] *)
Definition symptoms_triggers (d : data) : bool :=
  match symptoms d with
  | present s =>
      Js.truthy_string s && Js.includes (Js.toLowerCase s) "bleeding"
  | _ => false
  end.

Definition symptoms_rule (d : data) (st : Locals) : Locals :=
  if symptoms_triggers d
  then mkLocals (push "Bleeding symptoms" (factors st)) "high"
  else st.

(** The conditional expression that ends the function. *)
Definition recommendation_for (riskLevel : string) : string :=
  if String.eqb riskLevel "high" then
    "Please contact your healthcare provider immediately and schedule an urgent appointment."
  else if String.eqb riskLevel "medium" then
    "Monitor symptoms closely and schedule a follow-up appointment within the week."
  else
    "Continue with regular prenatal care and maintain healthy habits.".

(** The locals after the four [if] statements. *)
Definition run_rules (d : data) : Locals :=
  symptoms_rule d
    (babyMovement_rule d
      (weight_rule d
        (bloodPressure_rule d initial))).

Definition assessRisk (d : data) : RiskResult :=
  let st := run_rules d in
  mkResult (level st) (factors st) (recommendation_for (level st)).

(** ** The [POST /api/risk-assessments] handler

    [req.body] is whatever JSON object the client sent ([req] is typed
    [any]), so the handler is embedded over untyped JavaScript values. *)

Inductive value : Type :=
  | VUndefined
  | VNull
  | VBool (b : bool)
  | VNumber (q : Q)
  | VString (s : string)
  | VArray (elems : list value)
  | VObject (props : list (string * value)).

(** Reading a property of an object: a missing key reads as [undefined]. *)
Definition get (o : gmap string value) (k : string) : value :=
  default VUndefined (o !! k).

(** A value seen at the declared type [string | null | undefined];
    [None] when it is of another type. *)
Definition as_string (v : value) : option (optional string) :=
  match v with
  | VUndefined => Some undefined
  | VNull => Some null
  | VString s => Some (present s)
  | _ => None
  end.

Definition as_number (v : value) : option (optional Q) :=
  match v with
  | VUndefined => Some undefined
  | VNull => Some null
  | VNumber q => Some (present q)
  | _ => None
  end.

(** The same for a number read from an integer column. *)
Definition as_integer (v : value) : option (optional Z) :=
  match v with
  | VUndefined => Some undefined
  | VNull => Some null
  | VNumber q =>
      let r := Qred q in
      if Pos.eqb (Qden r) 1 then Some (present (Qnum r)) else None
  | _ => None
  end.

Definition timestamp : Type := Z.

(** What the handler takes from outside the repository. *)
Record Runtime : Type := mkRuntime {
  (** The outcome of the call [assessRisk(x)] when a field of [x] is not
      of its declared type (the arguments are the five fields of [x]):
      the returned record, or [None] when the call throws. *)
  untyped_call : value -> value -> value -> value -> value -> option RiskResult;
  (** The check that the generated insert schema makes on the number given
      for the [integer("weight")] column. *)
  integer_schema : Q -> bool;
  (** [gen_random_uuid()], the default of the [id] column. *)
  gen_random_uuid : list string -> string;
  (** [now()], the default of the timestamp columns. *)
  now : timestamp
}.

(** The call [assessRisk(x)] on an untyped object [x]. *)
Definition call_assessRisk (rt : Runtime) (x : gmap string value)
  : option RiskResult :=
  let bp := get x "bloodPressure" in
  let w := get x "weight" in
  let bm := get x "babyMovement" in
  let sy := get x "symptoms" in
  let pw := get x "pregnancyWeeks" in
  match as_string bp, as_number w, as_string bm, as_string sy, as_integer pw with
  | Some bp', Some w', Some bm', Some sy', Some pw' =>
      Some (assessRisk (mkData bp' w' bm' sy' pw'))
  | _, _, _, _, _ => untyped_call rt bp w bm sy pw
  end.

(** *** The schema module ([@shared/schema]) *)

(** A row of [users] (the columns the handler reads). *)
Record User : Type := mkUser {
  user_id : string;
  user_pregnancyWeeks : option Z;
  user_isPostpartum : option bool
}.

(** [InsertRiskAssessment]: the table's columns without [id] and
    [createdAt]; a nullable column or one with a default may be left out. *)
Record InsertRiskAssessment : Type := mkInsert {
  ins_userId : string;
  ins_bloodPressure : optional string;
  ins_weight : optional Q;
  ins_babyMovement : optional string;
  ins_symptoms : optional string;
  ins_riskLevel : string;
  ins_riskFactors : optional value;
  ins_recommendations : optional string;
  ins_assessmentDate : optional timestamp
}.

(** [RiskAssessment]: a row of [risk_assessments]. *)
Record RiskAssessment : Type := mkRow {
  row_id : string;
  row_userId : string;
  row_bloodPressure : option string;
  row_weight : option Z;
  row_babyMovement : option string;
  row_symptoms : option string;
  row_riskLevel : string;
  row_riskFactors : option value;
  row_recommendations : option string;
  row_assessmentDate : option timestamp;
  row_createdAt : option timestamp
}.

Definition required_string (v : value) : option string :=
  match v with
  | VString s => Some s
  | _ => None
  end.

Definition optional_integer (ok : Q -> bool) (v : value) : option (optional Q) :=
  match v with
  | VUndefined => Some undefined
  | VNull => Some null
  | VNumber q => if ok q then Some (present q) else None
  | _ => None
  end.

(** A [jsonb] column takes any JSON value. *)
Definition optional_json (v : value) : optional value :=
  match v with
  | VUndefined => undefined
  | VNull => null
  | _ => present v
  end.

(** A timestamp column takes a [Date], which no JSON value is. *)
Definition optional_date (v : value) : option (optional timestamp) :=
  match v with
  | VUndefined => Some undefined
  | VNull => Some null
  | _ => None
  end.

(** [insertRiskAssessmentSchema.parse(o)]: [None] stands for the [ZodError];
    keys that are no column of the schema are dropped. *)
Definition parse (rt : Runtime) (o : gmap string value)
  : option InsertRiskAssessment :=
  userId ← required_string (get o "userId");
  bp ← as_string (get o "bloodPressure");
  w ← optional_integer (integer_schema rt) (get o "weight");
  bm ← as_string (get o "babyMovement");
  sy ← as_string (get o "symptoms");
  rl ← required_string (get o "riskLevel");
  rc ← as_string (get o "recommendations");
  ad ← optional_date (get o "assessmentDate");
  Some (mkInsert userId bp w bm sy rl (optional_json (get o "riskFactors")) rc ad).

(** *** The storage module ([./storage]) *)

Record Storage : Type := mkStorage {
  users : gmap string User;
  riskAssessments : list RiskAssessment
}.

Definition getUser (st : Storage) (id : string) : option User :=
  users st !! id.

(** A nullable column: what is left out is stored as NULL. *)
Definition column {A : Type} (o : optional A) : option A :=
  match o with
  | present a => Some a
  | _ => None
  end.

(** A column with [defaultNow()]: the default fills in what is left out. *)
Definition column_default {A : Type} (dflt : A) (o : optional A) : option A :=
  match o with
  | undefined => Some dflt
  | null => None
  | present a => Some a
  end.

(** The value an [integer] column stores for a number, if it takes it. *)
Definition integer_column (o : optional Q) : option (option Z) :=
  match o with
  | present q =>
      let r := Qred q in
      if Pos.eqb (Qden r) 1
         && Z.leb (-2147483648) (Qnum r) && Z.leb (Qnum r) 2147483647
      then Some (Some (Qnum r)) else None
  | _ => Some None
  end.

(** [createRiskAssessment]: [insert ... values(assessment).returning()].
    The insert fails ([None]) when [userId] references no user or the
    weight is no 32-bit integer. *)
Definition createRiskAssessment (rt : Runtime) (st : Storage)
    (assessment : InsertRiskAssessment) : option (Storage * RiskAssessment) :=
  _ ← users st !! ins_userId assessment;
  w ← integer_column (ins_weight assessment);
  let newAssessment :=
    mkRow (gen_random_uuid rt (row_id <$> riskAssessments st))
          (ins_userId assessment)
          (column (ins_bloodPressure assessment))
          w
          (column (ins_babyMovement assessment))
          (column (ins_symptoms assessment))
          (ins_riskLevel assessment)
          (column (ins_riskFactors assessment))
          (column (ins_recommendations assessment))
          (column_default (now rt) (ins_assessmentDate assessment))
          (Some (now rt)) in
  Some (mkStorage (users st) (riskAssessments st ++ [newAssessment]),
        newAssessment).

(** *** The route *)

Inductive Response : Type :=
  | Created (assessment : RiskAssessment)   (* 201 *)
  | BadRequest                              (* 400, on a ZodError *)
  | ServerError.                            (* 500, on another error *)

(** [user?.pregnancyWeeks] *)
Definition user_weeks (user : option User) : value :=
  match user with
  | None => VUndefined
  | Some u =>
      match user_pregnancyWeeks u with
      | None => VNull
      | Some n => VNumber (inject_Z n)
      end
  end.

(** The same at its declared type. *)
Definition stored_pregnancyWeeks (st : Storage) (userId : string) : optional Z :=
  match getUser st userId with
  | None => undefined
  | Some u =>
      match user_pregnancyWeeks u with
      | None => null
      | Some n => present n
      end
  end.

(** The handler, for the authenticated user [userId]
    ([req.user.claims.sub]) and the request body [body]. *)
Definition postRiskAssessment (rt : Runtime) (st : Storage) (userId : string)
    (body : gmap string value) : Storage * Response :=
  let user := getUser st userId in
  match call_assessRisk rt (<["pregnancyWeeks" := user_weeks user]> body) with
  | None => (st, ServerError)
  | Some riskAnalysis =>
      match parse rt
              (<["recommendations" := VString (recommendations riskAnalysis)]>
               (<["riskFactors" := VArray (VString <$> riskFactors riskAnalysis)]>
                (<["riskLevel" := VString (riskLevel riskAnalysis)]>
                 (<["userId" := VString userId]> body)))) with
      | None => (st, BadRequest)
      | Some assessmentData =>
          match createRiskAssessment rt st assessmentData with
          | None => (st, ServerError)
          | Some (st', assessment) => (st', Created assessment)
          end
      end
  end.

(** *** A request that supplies its own classification *)

Definition example_runtime : Runtime :=
  mkRuntime (fun _ _ _ _ _ => None)
            (fun q => Pos.eqb (Qden (Qred q)) 1)
            (fun ids => "assessment-1")
            1700000000%Z.

Definition example_storage : Storage :=
  mkStorage {["user-1" := mkUser "user-1" (Some 10%Z) (Some false)]} [].

Definition example_body : gmap string value :=
  list_to_map
    [("bloodPressure", VString "140/90");
     ("weight", VNumber 20);
     ("pregnancyWeeks", VNumber 40);
     ("riskLevel", VString "low");
     ("riskFactors", VArray []);
     ("recommendations", VString "All fine.")].

(** ** The words of the specification

    The specification speaks of a text that contains a substring, of the
    severity order high > medium > low and of the rules that trigger; these
    definitions follow its words and are compared with the code below. *)

(** [s] contains [sub]: [s] is [pre ++ sub ++ post]. *)
Definition contains (s sub : string) : Prop :=
  exists pre post : string, s = String.append pre (String.append sub post).

(** high > medium > low *)
Definition severity (riskLevel : string) : nat :=
  if String.eqb riskLevel "high" then 2
  else if String.eqb riskLevel "medium" then 1
  else 0.

Inductive Rule : Type :=
  | BloodPressureRule
  | WeightRule
  | BabyMovementRule
  | SymptomsRule.

(** The rules in evaluation order. *)
Definition rules : list Rule :=
  [BloodPressureRule; WeightRule; BabyMovementRule; SymptomsRule].

Definition triggers (d : data) (r : Rule) : bool :=
  match r with
  | BloodPressureRule => bloodPressure_triggers d
  | WeightRule => weight_triggers d
  | BabyMovementRule => babyMovement_triggers d
  | SymptomsRule => symptoms_triggers d
  end.

(** The severity the specification gives to each rule. *)
Definition rule_level (r : Rule) : string :=
  match r with
  | WeightRule => "medium"
  | _ => "high"
  end.

(** The risk factor the specification gives to each rule. *)
Definition rule_factor (r : Rule) : string :=
  match r with
  | BloodPressureRule => "High blood pressure"
  | WeightRule => "Excessive weight gain"
  | BabyMovementRule => "Reduced fetal movement"
  | SymptomsRule => "Bleeding symptoms"
  end.

(** The more severe of two levels. *)
Definition max_level (a b : string) : string :=
  if (severity a <? severity b)%nat then b else a.

(** The most severe level of a list, low when the list is empty. *)
Definition max_severity (levels : list string) : string :=
  foldr max_level "low" levels.

(** The weight threshold in the words of the specification:
    weight > 1.5 x expectedWeight, with expectedWeight = 0.5 x weeks. *)
Definition exceeds_threshold (w : Q) (pw : Z) : Prop :=
  (1.5 * (0.5 * inject_Z pw) < w)%Q.

(** ** Reading the assessments back (the storage module)

    [desc(riskAssessments.assessmentDate)]: the later date first, and NULL
    before every date.  Among rows of the same date the database promises
    no order; the embedding takes the one of the merge sort. *)

Definition later_or_equal (a b : option timestamp) : bool :=
  match a, b with
  | None, _ => true
  | Some _, None => false
  | Some x, Some y => Z.leb y x
  end.

Definition precedes (r1 r2 : RiskAssessment) : Prop :=
  later_or_equal (row_assessmentDate r1) (row_assessmentDate r2) = true.

#[local] Instance precedes_dec : RelDecision precedes.
Proof. intros r1 r2. unfold precedes. apply _. Defined.

(** [select().from(riskAssessments).where(eq(userId, ...)).orderBy(desc(...))] *)
Definition getUserRiskAssessments (st : Storage) (userId : string)
  : list RiskAssessment :=
  merge_sort precedes
    (filter (fun r => row_userId r = userId) (riskAssessments st)).


(** ** The client pages

    The pages read the clock ([new Date()]) and parse date texts
    ([new Date(s).getTime()]); both are taken from outside: [now] is the
    time read, in milliseconds, and [Date_parse s] is the time of [s], or
    [None] for an invalid date, whose time is NaN. *)

Section Client.

Variable Date_parse : string -> option Z.

(** [calculateWeeks] of the pregnancy wheel; [None] is [null]. *)
Definition calculateWeeks (today : Z) (lmp : string) : option Z :=
  if negb (Js.truthy_string lmp) then None
  else
    match Date_parse lmp with
    | None => None
    | Some lmpDate =>
        let diff := (today - lmpDate)%Z in
        if (diff <? 0)%Z then None
        else Some (diff / (1000 * 60 * 60 * 24 * 7))%Z
    end.

(** [formatTimeAgo] of the community page; [toLocaleDateString] is the
    method of the date parsed. *)
Definition formatTimeAgo (toLocaleDateString : option Z -> string) (now : Z)
    (date : string) : string :=
  match Date_parse date with
  | None => toLocaleDateString None
  | Some postDate =>
      let diffInHours := ((now - postDate) / (1000 * 60 * 60))%Z in
      if (diffInHours <? 1)%Z then "Just now"
      else if (diffInHours <? 24)%Z then pretty diffInHours +:+ "h ago"
      else
        let diffInDays := (diffInHours / 24)%Z in
        if (diffInDays <? 7)%Z then pretty diffInDays +:+ "d ago"
        else toLocaleDateString (Some postDate)
  end.

(** A row of [immunizations] (the columns the page tests). *)
Record Immunization : Type := mkImmunization {
  imm_vaccineName : string;
  imm_status : string;
  imm_scheduledDate : string
}.

(** [new Date(scheduledDate) < new Date()] *)
Definition before_now (now : Z) (scheduledDate : string) : bool :=
  match Date_parse scheduledDate with
  | Some t => (t <? now)%Z
  | None => false
  end.

(** [immunizations?.filter(p) || []] *)
Definition filter_or_empty (p : Immunization -> bool)
    (immunizations : option (list Immunization)) : list Immunization :=
  match immunizations with
  | Some l => List.filter p l
  | None => []
  end.

Definition upcomingImmunizations (immunizations : option (list Immunization))
  : list Immunization :=
  filter_or_empty (fun imm => String.eqb (imm_status imm) "pending")
    immunizations.

Definition completedImmunizations (immunizations : option (list Immunization))
  : list Immunization :=
  filter_or_empty (fun imm => String.eqb (imm_status imm) "completed")
    immunizations.

Definition overdueImmunizations (now : Z)
    (immunizations : option (list Immunization)) : list Immunization :=
  filter_or_empty
    (fun imm => String.eqb (imm_status imm) "pending"
                && before_now now (imm_scheduledDate imm))
    immunizations.


End Client.

(** A date parser for the examples: two dates in milliseconds. *)
Definition example_Date_parse (s : string) : option Z :=
  if String.eqb s "2024-01-01" then Some 1704067200000%Z
  else if String.eqb s "2024-03-01" then Some 1709251200000%Z
  else None.

(** [getRiskBadgeVariant] of the risk assessment page. *)
Definition getRiskBadgeVariant (riskLevel : string) : string :=
  if String.eqb riskLevel "high" then "destructive"
  else if String.eqb riskLevel "medium" then "secondary"
  else if String.eqb riskLevel "low" then "default"
  else "outline".

(** ** Liking a post (the storage module and its route) *)

(** A row of [community_posts]. *)
Record CommunityPost : Type := mkPost {
  post_id : string;
  post_userId : string;
  post_title : option string;
  post_content : string;
  post_category : option string;
  post_likes : option Z;
  post_createdAt : option timestamp;
  post_updatedAt : option timestamp
}.

(** [likes + 1] in an [integer] column: NULL stays NULL, and the
    statement fails ([None]) beyond the 32-bit range. *)
Definition likes_plus_one (likes : option Z) : option (option Z) :=
  match likes with
  | None => Some None
  | Some n =>
      if (n + 1 <=? 2147483647)%Z then Some (Some (n + 1)%Z) else None
  end.

(** [set({ likes: sql`likes + 1`, updatedAt: new Date() })] on one row. *)
Definition liked (now : timestamp) (p : CommunityPost) : option CommunityPost :=
  likes ← likes_plus_one (post_likes p);
  Some (mkPost (post_id p) (post_userId p) (post_title p) (post_content p)
               (post_category p) likes (post_createdAt p) (Some now)).

(** [update(communityPosts).set(...).where(eq(id, postId)).returning()]:
    the table afterwards and the rows returned; [None] when the statement
    fails, which changes nothing. *)
Fixpoint update_likes (now : timestamp) (postId : string)
    (posts : list CommunityPost)
  : option (list CommunityPost * list CommunityPost) :=
  match posts with
  | [] => Some ([], [])
  | p :: rest =>
      match update_likes now postId rest with
      | None => None
      | Some (rest', returned) =>
          if String.eqb (post_id p) postId then
            match liked now p with
            | None => None
            | Some p' => Some (p' :: rest', p' :: returned)
            end
          else Some (p :: rest', returned)
      end
  end.

(** [likeCommunityPost]: [const [updatedPost] = ...] is the first row
    returned, undefined when there is none. *)
Definition likeCommunityPost (now : timestamp) (posts : list CommunityPost)
    (postId : string) : option (list CommunityPost * option CommunityPost) :=
  match update_likes now postId posts with
  | None => None
  | Some (posts', returned) => Some (posts', head returned)
  end.

Inductive LikeResponse : Type :=
  | Liked (post : CommunityPost)    (* 200 *)
  | PostNotFound                    (* 404 *)
  | LikeFailed.                     (* 500 *)

(** [POST /api/community/posts/:id/like] *)
Definition postLike (now : timestamp) (posts : list CommunityPost)
    (id : string) : list CommunityPost * LikeResponse :=
  match likeCommunityPost now posts id with
  | None => (posts, LikeFailed)
  | Some (posts', None) => (posts', PostNotFound)
  | Some (posts', Some post) => (posts', Liked post)
  end.

(** The request repeated [k] times. *)
Fixpoint postLike_times (k : nat) (now : timestamp)
    (posts : list CommunityPost) (id : string) : list CommunityPost :=
  match k with
  | O => posts
  | S k' => postLike_times k' now (fst (postLike now posts id)) id
  end.

(** The likes of the post [id] in the table. *)
Definition likes_of (posts : list CommunityPost) (id : string)
  : option (option Z) :=
  post_likes <$> List.find (fun p => String.eqb (post_id p) id) posts.


Definition example_posts : list CommunityPost :=
  [mkPost "post-1" "user-1" None "Hello" None (Some 0%Z) (Some 10%Z) (Some 10%Z);
   mkPost "post-2" "user-2" (Some "Tips") "Sleep" (Some "general") (Some 41%Z)
          (Some 20%Z) (Some 20%Z)].

(** ** The conditions of the rules, as propositions *)

Definition bloodPressure_condition (d : data) : Prop :=
  exists s, bloodPressure d = present s
            /\ (contains s "high" \/ contains s "140").

Definition weight_condition (d : data) : Prop :=
  exists w pw, weight d = present w /\ pregnancyWeeks d = present pw
               /\ ~ (w == 0)%Q /\ pw <> 0%Z /\ exceeds_threshold w pw.

Definition babyMovement_condition (d : data) : Prop :=
  babyMovement d = present "reduced".

Definition symptoms_condition (d : data) : Prop :=
  exists s, symptoms d = present s
            /\ contains (Js.toLowerCase s) "bleeding".

(** A field that is null read as a field that is absent. *)
Definition denull {A : Type} (o : optional A) : optional A :=
  match o with
  | null => undefined
  | _ => o
  end.

(** [o'] keeps the observation [o] or supplies one where [o] has none. *)
Definition fills {A : Type} (o o' : optional A) : Prop :=
  o = o' \/ o = undefined \/ o = null.

(** [d'] holds every observation of [d], and possibly more. *)
Definition extends (d d' : data) : Prop :=
  fills (bloodPressure d) (bloodPressure d')
  /\ fills (weight d) (weight d')
  /\ fills (babyMovement d) (babyMovement d')
  /\ fills (symptoms d) (symptoms d')
  /\ fills (pregnancyWeeks d) (pregnancyWeeks d').

(** The [integer] column value [c] holds the weight [w]: NULL for none,
    else the same number, a 32-bit integer. *)
Definition holds_weight (w : optional Q) (c : option Z) : Prop :=
  match w with
  | present q =>
      exists n, c = Some n /\ (q == inject_Z n)%Q
                /\ (-2147483648 <= n <= 2147483647)%Z
  | _ => c = None
  end.

(** * Properties *)

(** ** Strings *)

Section Strings.

Lemma append_cons (c : ascii) (a b : string) :
  String.append (String c a) b = String c (String.append a b).
Proof. reflexivity. Qed.

Lemma append_nil (b : string) : String.append "" b = b.
Proof. reflexivity. Qed.

Lemma prefix_iff (p s : string) :
  String.prefix p s = true <-> exists post, s = String.append p post.
Proof.
  revert s. induction p as [|c p IH]; intros s.
  - split; [intros _; by exists s | intros _; by destruct s].
  - destruct s as [|c' s]; [split; [done | intros [post H]; discriminate H] |].
    cbn [String.prefix].
    destruct (Ascii.ascii_dec c c') as [->|Hne].
    + rewrite IH. split; intros [post H]; exists post.
      * by rewrite H.
      * by injection H.
    + split; [done | intros [post H]; injection H; congruence].
Qed.

Lemma includes_iff (s sub : string) :
  Js.includes s sub = true <-> contains s sub.
Proof.
  unfold contains. induction s as [|c s IH].
  - cbn [Js.includes]. rewrite orb_false_r, prefix_iff. split.
    + intros [post H]. by exists "", post.
    + intros [pre [post H]]. destruct pre; [by exists post | discriminate H].
  - cbn [Js.includes]. rewrite orb_true_iff, prefix_iff, IH. split.
    + intros [[post H] | [pre [post H]]].
      * by exists "", post.
      * exists (String c pre), post. by rewrite append_cons, H.
    + intros [pre [post H]]. destruct pre as [|c' pre].
      * left. by exists post.
      * right. exists pre, post. rewrite append_cons in H. by injection H.
Qed.

Lemma toLowerCase_app (a b : string) :
  Js.toLowerCase (String.append a b)
  = String.append (Js.toLowerCase a) (Js.toLowerCase b).
Proof.
  induction a as [|c a IH]; [done |].
  rewrite append_cons. cbn [Js.toLowerCase]. by rewrite IH.
Qed.

(** A text that contains a word contains its lower-case form once
    lower-cased. *)
Lemma contains_toLowerCase (s u : string) :
  contains s u -> contains (Js.toLowerCase s) (Js.toLowerCase u).
Proof.
  intros [pre [post ->]].
  exists (Js.toLowerCase pre), (Js.toLowerCase post).
  by rewrite !toLowerCase_app.
Qed.

Lemma contains_nonempty (s sub : string) :
  contains s sub -> sub <> "" -> Js.truthy_string s = true.
Proof.
  intros [pre [post ->]] Hsub. unfold Js.truthy_string.
  destruct pre; [destruct sub; [done|] |]; reflexivity.
Qed.

End Strings.

(** ** Numbers *)

Section Numbers.

Lemma gt_iff (x y : Q) : Js.gt x y = true <-> (y < x)%Q.
Proof.
  unfold Js.gt. rewrite negb_true_iff, <- not_true_iff_false, Qle_bool_iff.
  split; [apply Qnot_le_lt | apply Qlt_not_le].
Qed.

Lemma truthy_number_iff (q : Q) : Js.truthy_number q = true <-> ~ (q == 0)%Q.
Proof.
  unfold Js.truthy_number.
  by rewrite negb_true_iff, <- not_true_iff_false, Qeq_bool_iff.
Qed.

Lemma truthy_weeks_iff (pw : Z) :
  Js.truthy_number (inject_Z pw) = true <-> pw <> 0%Z.
Proof.
  rewrite truthy_number_iff. unfold Qeq, inject_Z. simpl. lia.
Qed.

(** The threshold as the code computes it and as the specification
    writes it. *)
Lemma threshold_comm (w : Q) (pw : Z) :
  (0.5 * inject_Z pw * 1.5 < w)%Q <-> exceeds_threshold w pw.
Proof.
  unfold exceeds_threshold.
  by rewrite (Qmult_comm (0.5 * inject_Z pw) 1.5).
Qed.

Lemma threshold_positive (w : Q) (pw : Z) :
  (0 <= pw)%Z -> exceeds_threshold w pw -> ~ (w == 0)%Q.
Proof.
  unfold exceeds_threshold. intros Hpw Hlt Hw. rewrite Hw in Hlt.
  revert Hlt. unfold Qlt, Qmult, inject_Z. simpl. lia.
Qed.

(** The guard and the comparison of the weight rule. *)
Lemma weight_triggers_iff (d : data) (w : Q) (pw : Z) :
  weight d = present w -> pregnancyWeeks d = present pw ->
  weight_triggers d = true
  <-> ~ (w == 0)%Q /\ pw <> 0%Z /\ exceeds_threshold w pw.
Proof.
  intros Hw Hpw. unfold weight_triggers. rewrite Hw, Hpw.
  rewrite <- threshold_comm, <- gt_iff, <- truthy_weeks_iff, <- truthy_number_iff.
  destruct (Js.truthy_number w), (Js.truthy_number (inject_Z pw)); simpl;
    intuition congruence.
Qed.

End Numbers.

(** ** The rule table *)

Section RuleTable.

Variable d : data.

(** Case analysis on which rules trigger. *)
Ltac by_cases :=
  unfold assessRisk, run_rules, symptoms_rule, babyMovement_rule,
    weight_rule, bloodPressure_rule, triggers;
  destruct (bloodPressure_triggers d), (weight_triggers d),
    (babyMovement_triggers d), (symptoms_triggers d).

Lemma severity_le_high (l : string) : severity l <= 2.
Proof.
  unfold severity.
  destruct (String.eqb l "high"), (String.eqb l "medium"); lia.
Qed.

Lemma factors_in_rule_order :
  factors (run_rules d) = List.map rule_factor (List.filter (triggers d) rules).
Proof. by_cases; reflexivity. Qed.

Lemma level_is_max :
  level (run_rules d)
  = max_severity (List.map rule_level (List.filter (triggers d) rules)).
Proof. by_cases; reflexivity. Qed.

Lemma sets_high_monotone (f : string) (st : Locals) :
  severity (level st) <= severity (level (mkLocals (push f (factors st)) "high")).
Proof. apply severity_le_high. Qed.

Lemma bloodPressure_rule_monotone (st : Locals) :
  severity (level st) <= severity (level (bloodPressure_rule d st)).
Proof.
  unfold bloodPressure_rule.
  destruct (bloodPressure_triggers d); [apply sets_high_monotone | done].
Qed.

Lemma weight_rule_monotone (st : Locals) :
  severity (level st) <= severity (level (weight_rule d st)).
Proof.
  unfold weight_rule. destruct (weight_triggers d); [| done].
  cbn [level]. unfold severity at 1.
  destruct (String.eqb (level st) "high"); [done |].
  destruct (String.eqb (level st) "medium"); cbn; lia.
Qed.

Lemma babyMovement_rule_monotone (st : Locals) :
  severity (level st) <= severity (level (babyMovement_rule d st)).
Proof.
  unfold babyMovement_rule.
  destruct (babyMovement_triggers d); [apply sets_high_monotone | done].
Qed.

Lemma symptoms_rule_monotone (st : Locals) :
  severity (level st) <= severity (level (symptoms_rule d st)).
Proof.
  unfold symptoms_rule.
  destruct (symptoms_triggers d); [apply sets_high_monotone | done].
Qed.

End RuleTable.

(** ** The conditions of the rules in the words of the specification *)

Section Conditions.

Variable d : data.

Lemma bloodPressure_triggers_iff :
  bloodPressure_triggers d = true
  <-> exists s, bloodPressure d = present s
                /\ (contains s "high" \/ contains s "140").
Proof.
  unfold bloodPressure_triggers. split.
  - destruct (bloodPressure d) as [| |s]; [done | done |].
    rewrite andb_true_iff, orb_true_iff, !includes_iff.
    intros [_ H]. by exists s.
  - intros [s [-> H]].
    rewrite andb_true_iff, orb_true_iff, !includes_iff. split; [| done].
    destruct H as [H|H]; by apply (contains_nonempty _ _ H).
Qed.

Lemma symptoms_triggers_iff :
  symptoms_triggers d = true
  <-> exists s, symptoms d = present s
                /\ contains (Js.toLowerCase s) "bleeding".
Proof.
  unfold symptoms_triggers. split.
  - destruct (symptoms d) as [| |s]; [done | done |].
    rewrite andb_true_iff, includes_iff. intros [_ H]. by exists s.
  - intros [s [-> H]]. rewrite andb_true_iff, includes_iff. split; [| done].
    destruct s; [| done].
    apply includes_iff in H. discriminate H.
Qed.

Lemma babyMovement_triggers_iff :
  babyMovement_triggers d = true <-> babyMovement d = present "reduced".
Proof.
  unfold babyMovement_triggers.
  destruct (babyMovement d) as [| |s]; [done | done |].
  rewrite String.eqb_eq. split; congruence.
Qed.

Lemma weight_factor_iff :
  In "Excessive weight gain" (riskFactors (assessRisk d))
  <-> weight_triggers d = true.
Proof.
  cbn [assessRisk riskFactors]. rewrite factors_in_rule_order.
  unfold rules, triggers, List.filter.
  destruct (bloodPressure_triggers d), (weight_triggers d),
    (babyMovement_triggers d), (symptoms_triggers d); cbn;
    intuition congruence.
Qed.

End Conditions.

(** ** The claims about [assessRisk] *)

(** C1, as amended.  For every input in which weight is present (0
    included) and pregnancyWeeks is present (a non-negative integer), the
    weight rule computes expectedWeight = 0.5 x pregnancyWeeks and, exactly
    when pregnancyWeeks is not 0 and weight > 1.5 x expectedWeight, appends
    "Excessive weight gain" to riskFactors and sets riskLevel to high if it
    was high and to medium otherwise; in the other case the rule changes
    nothing. *)
Theorem weight_rule_exact (d : data) (w : Q) (pw : Z) :
  weight d = present w ->
  pregnancyWeeks d = present pw ->
  (0 <= pw)%Z ->
  (pw <> 0%Z /\ exceeds_threshold w pw ->
   forall st,
     factors (weight_rule d st) = (factors st ++ ["Excessive weight gain"])%list
     /\ level (weight_rule d st)
        = if decide (level st = "high") then "high" else "medium")
  /\ (~ (pw <> 0%Z /\ exceeds_threshold w pw) ->
      forall st, weight_rule d st = st)
  /\ (In "Excessive weight gain" (riskFactors (assessRisk d))
      <-> pw <> 0%Z /\ exceeds_threshold w pw).
Proof.
  intros Hw Hpw Hpos.
  assert (Hiff : weight_triggers d = true
                 <-> pw <> 0%Z /\ exceeds_threshold w pw).
  { rewrite (weight_triggers_iff d w pw Hw Hpw). split; [tauto |].
    intros [H0 H]. split; [by apply (threshold_positive w pw) | done]. }
  split; [| split].
  - intros H st. apply Hiff in H. unfold weight_rule. rewrite H.
    split; [done |]. cbn [level].
    destruct (String.eqb_spec (level st) "high"); case_decide; done.
  - intros H st. unfold weight_rule.
    destruct (weight_triggers d); [| done]. by destruct H; apply Hiff.
  - by rewrite weight_factor_iff.
Qed.

(** The example of the specification: weight 20 at week 10 (expected 5,
    threshold 7.5) triggers the rule, and the level is medium. *)
Lemma weight_rule_exact_witness :
  let d := mkData undefined (present 20%Q) undefined undefined (present 10%Z) in
  exceeds_threshold 20 10
  /\ In "Excessive weight gain" (riskFactors (assessRisk d))
  /\ level (weight_rule d initial) = "medium".
Proof.
  intros d.
  destruct (weight_rule_exact d 20 10 eq_refl eq_refl) as [H1 [_ H3]];
    [discriminate |].
  assert (H : 10%Z <> 0%Z /\ exceeds_threshold 20 10)
    by (split; [discriminate | reflexivity]).
  split; [exact (proj2 H) |]. split; [by apply H3 |].
  exact (proj2 (H1 H initial)).
Defined.

(** C1, as stated, fails at week 0: weight 5 exceeds 1.5 x 0.5 x 0 = 0,
    and the guard [data.weight && data.pregnancyWeeks] skips the rule. *)
Lemma weight_rule_skips_week_zero :
  let d := mkData undefined (present 5%Q) undefined undefined (present 0%Z) in
  weight d = present 5%Q
  /\ pregnancyWeeks d = present 0%Z
  /\ exceeds_threshold 5 0
  /\ ~ In "Excessive weight gain" (riskFactors (assessRisk d))
  /\ riskLevel (assessRisk d) = "low".
Proof.
  intros d. split; [done |]. split; [done |]. split; [reflexivity |].
  split; [| reflexivity]. vm_compute. tauto.
Qed.

(** C3.  Within one evaluation no rule lowers the riskLevel, whatever the
    locals it starts from, and the final riskLevel is the maximum severity
    (high > medium > low) among the rules that triggered; it is low when
    no rule triggers. *)
Theorem level_monotone_and_maximal (d : data) :
  (forall st,
     severity (level st) <= severity (level (bloodPressure_rule d st))
     /\ severity (level st) <= severity (level (weight_rule d st))
     /\ severity (level st) <= severity (level (babyMovement_rule d st))
     /\ severity (level st) <= severity (level (symptoms_rule d st)))
  /\ riskLevel (assessRisk d)
     = max_severity (List.map rule_level (List.filter (triggers d) rules))
  /\ (List.filter (triggers d) rules = [] -> riskLevel (assessRisk d) = "low").
Proof.
  split; [| split].
  - intros st.
    auto using bloodPressure_rule_monotone, weight_rule_monotone,
      babyMovement_rule_monotone, symptoms_rule_monotone.
  - apply level_is_max.
  - intros H. cbn [assessRisk riskLevel]. by rewrite level_is_max, H.
Qed.

Lemma level_monotone_and_maximal_witness :
  let d := mkData (present "120/80") undefined (present "active") undefined undefined in
  List.filter (triggers d) rules = [] /\ riskLevel (assessRisk d) = "low".
Proof.
  intros d. split; [reflexivity |].
  apply (level_monotone_and_maximal d). reflexivity.
Defined.

(** C4, as amended.  riskFactors lists one entry per triggered rule in
    rule-evaluation order, and is empty when no rule triggers.  When the
    bloodPressure text contains "high" or "140", weight is present, 
    pregnancyWeeks is present and positive, weight > 1.5 x 0.5 x
    pregnancyWeeks, and no other rule triggers, the final riskLevel is high
    and riskFactors is exactly ["High blood pressure"; "Excessive weight
    gain"]. *)
Theorem factors_in_order_combined (d : data) :
  riskFactors (assessRisk d)
  = List.map rule_factor (List.filter (triggers d) rules)
  /\ (List.filter (triggers d) rules = [] -> riskFactors (assessRisk d) = [])
  /\ (forall bp w pw,
        bloodPressure d = present bp ->
        contains bp "high" \/ contains bp "140" ->
        weight d = present w ->
        pregnancyWeeks d = present pw ->
        (0 < pw)%Z ->
        exceeds_threshold w pw ->
        babyMovement d <> present "reduced" ->
        (forall s, symptoms d = present s ->
                   ~ contains (Js.toLowerCase s) "bleeding") ->
        riskLevel (assessRisk d) = "high"
        /\ riskFactors (assessRisk d)
           = ["High blood pressure"; "Excessive weight gain"]).
Proof.
  split; [apply factors_in_rule_order |].
  split; [intros H; cbn [assessRisk riskFactors];
          by rewrite factors_in_rule_order, H |].
  intros bp w pw Hbp Hhigh Hw Hpw Hpos Hex Hbm Hsy.
  assert (H1 : bloodPressure_triggers d = true).
  { apply bloodPressure_triggers_iff. by exists bp. }
  assert (H2 : weight_triggers d = true).
  { apply (weight_triggers_iff d w pw Hw Hpw).
    split; [apply (threshold_positive w pw); [lia | done] |].
    split; [lia | done]. }
  assert (H3 : babyMovement_triggers d = false).
  { apply not_true_is_false. by rewrite babyMovement_triggers_iff. }
  assert (H4 : symptoms_triggers d = false).
  { apply not_true_is_false. rewrite symptoms_triggers_iff.
    intros [s [Hs Hc]]. by apply (Hsy s). }
  cbn [assessRisk riskLevel riskFactors].
  rewrite level_is_max, factors_in_rule_order.
  unfold rules, triggers, List.filter. by rewrite H1, H2, H3, H4.
Qed.

Lemma factors_in_order_combined_witness :
  let d := mkData (present "140/90") (present 20%Q) undefined undefined
                  (present 10%Z) in
  riskLevel (assessRisk d) = "high"
  /\ riskFactors (assessRisk d)
     = ["High blood pressure"; "Excessive weight gain"].
Proof.
  intros d.
  apply (proj2 (proj2 (factors_in_order_combined d)) "140/90" 20%Q 10%Z);
    try reflexivity; try discriminate.
  right. by exists "", "/90".
Defined.

(** C4, as stated, fails at week 0: the bloodPressure rule triggers,
    weight 5 exceeds 1.5 x 0.5 x 0 = 0, no other rule triggers, and
    riskFactors holds "High blood pressure" alone. *)
Lemma combined_skips_week_zero :
  let d := mkData (present "140/90") (present 5%Q) undefined undefined
                  (present 0%Z) in
  contains "140/90" "140"
  /\ exceeds_threshold 5 0
  /\ babyMovement_triggers d = false
  /\ symptoms_triggers d = false
  /\ riskFactors (assessRisk d) = ["High blood pressure"]
  /\ riskFactors (assessRisk d)
     <> ["High blood pressure"; "Excessive weight gain"].
Proof.
  intros d. split; [by exists "", "/90" |].
  repeat (split; [reflexivity |]). discriminate.
Qed.

(** C5.  [assessRisk] returns a classification for every input, and the
    recommendations text is the one selected by the final riskLevel: the
    urgent-appointment text for high, the follow-up text for medium, the
    regular-care text for low. *)
Theorem recommendation_matches_level (d : data) :
  exists r, assessRisk d = r
  /\ ((riskLevel r = "high"
       /\ recommendations r
          = "Please contact your healthcare provider immediately and schedule an urgent appointment.")
      \/ (riskLevel r = "medium"
          /\ recommendations r
             = "Monitor symptoms closely and schedule a follow-up appointment within the week.")
      \/ (riskLevel r = "low"
          /\ recommendations r
             = "Continue with regular prenatal care and maintain healthy habits.")).
Proof.
  eexists. split; [reflexivity |].
  unfold assessRisk, run_rules, symptoms_rule, babyMovement_rule,
    weight_rule, bloodPressure_rule.
  destruct (bloodPressure_triggers d), (weight_triggers d),
    (babyMovement_triggers d), (symptoms_triggers d); cbn; tauto.
Qed.

(** Later rules keep what the bloodPressure rule has done: the first
    factor stays first and the level stays high. *)
Lemma after_bloodPressure (d : data) :
  bloodPressure_triggers d = true ->
  riskLevel (assessRisk d) = "high"
  /\ exists rest, riskFactors (assessRisk d) = "High blood pressure" :: rest.
Proof.
  intros H. unfold assessRisk, run_rules, symptoms_rule, babyMovement_rule,
    weight_rule, bloodPressure_rule. rewrite H.
  destruct (weight_triggers d), (babyMovement_triggers d),
    (symptoms_triggers d); cbn; eauto.
Qed.

(** C6.  When bloodPressure is present and its text contains "high" or
    "140" (as supplied, no case folding), the rule appends "High blood
    pressure" to riskFactors and sets riskLevel to high, and the final
    riskLevel is high with "High blood pressure" among the riskFactors. *)
Theorem bloodPressure_rule_high (d : data) (bp : string) :
  bloodPressure d = present bp ->
  contains bp "high" \/ contains bp "140" ->
  (forall st,
     bloodPressure_rule d st
     = mkLocals (factors st ++ ["High blood pressure"])%list "high")
  /\ riskLevel (assessRisk d) = "high"
  /\ In "High blood pressure" (riskFactors (assessRisk d)).
Proof.
  intros Hbp Hc.
  assert (H : bloodPressure_triggers d = true).
  { apply bloodPressure_triggers_iff. by exists bp. }
  split; [intros st; unfold bloodPressure_rule; by rewrite H |].
  destruct (after_bloodPressure d H) as [Hl [rest Hf]].
  split; [done |]. rewrite Hf. by left.
Qed.

(** The example of the specification: bloodPressure "140/90 high". *)
Lemma bloodPressure_rule_high_witness :
  let d := mkData (present "140/90 high") undefined undefined undefined
                  undefined in
  riskLevel (assessRisk d) = "high"
  /\ In "High blood pressure" (riskFactors (assessRisk d)).
Proof.
  intros d.
  apply (bloodPressure_rule_high d "140/90 high"); [reflexivity |].
  left. by exists "140/90 ", "".
Defined.

(** The match is case-sensitive: "HIGH" does not trigger the rule. *)
Example bloodPressure_upper_case :
  assessRisk (mkData (present "HIGH") undefined undefined undefined undefined)
  = mkResult "low" []
      "Continue with regular prenatal care and maintain healthy habits.".
Proof. reflexivity. Qed.

(** The symptoms rule is the last one: what it does is final. *)
Lemma after_symptoms (d : data) :
  symptoms_triggers d = true ->
  riskLevel (assessRisk d) = "high"
  /\ In "Bleeding symptoms" (riskFactors (assessRisk d)).
Proof.
  intros H. unfold assessRisk, run_rules. cbn [riskLevel riskFactors].
  unfold symptoms_rule at 1 2. rewrite H. cbn [level factors].
  split; [done |]. unfold push. apply in_or_app. right. by left.
Qed.

(** C7.  When symptoms is present and its lower-cased text contains
    "bleeding", the rule appends "Bleeding symptoms" to riskFactors and
    sets riskLevel to high, and the final riskLevel is high with "Bleeding
    symptoms" among the riskFactors. *)
Theorem symptoms_rule_high (d : data) (s : string) :
  symptoms d = present s ->
  contains (Js.toLowerCase s) "bleeding" ->
  (forall st,
     symptoms_rule d st
     = mkLocals (factors st ++ ["Bleeding symptoms"])%list "high")
  /\ riskLevel (assessRisk d) = "high"
  /\ In "Bleeding symptoms" (riskFactors (assessRisk d)).
Proof.
  intros Hs Hc.
  assert (H : symptoms_triggers d = true).
  { apply symptoms_triggers_iff. by exists s. }
  split; [intros st; unfold symptoms_rule; by rewrite H |].
  by apply after_symptoms.
Qed.

(** The example of the specification: symptoms "Heavy Bleeding today". *)
Lemma symptoms_rule_high_witness :
  let d := mkData undefined undefined undefined
                  (present "Heavy Bleeding today") undefined in
  riskLevel (assessRisk d) = "high"
  /\ In "Bleeding symptoms" (riskFactors (assessRisk d)).
Proof.
  intros d.
  apply (symptoms_rule_high d "Heavy Bleeding today"); [reflexivity |].
  by exists "heavy ", " today".
Defined.

(** The match ignores case: the word may occur in the text in any mix of
    upper and lower case. *)
Corollary symptoms_any_case (d : data) (s u : string) :
  symptoms d = present s ->
  Js.toLowerCase u = "bleeding" ->
  contains s u ->
  riskLevel (assessRisk d) = "high"
  /\ In "Bleeding symptoms" (riskFactors (assessRisk d)).
Proof.
  intros Hs Hu Hc. apply after_symptoms, symptoms_triggers_iff.
  exists s. split; [done |]. rewrite <- Hu. by apply contains_toLowerCase.
Qed.

(** C8.  With every optional field absent the result is low, no risk
    factors and the regular-care text. *)
Theorem all_absent_is_low :
  assessRisk (mkData undefined undefined undefined undefined undefined)
  = mkResult "low" []
      "Continue with regular prenatal care and maintain healthy habits.".
Proof. reflexivity. Qed.

(** The same when the fields are null, as the columns of a new user are. *)
Example all_null_is_low :
  assessRisk (mkData null null null null null)
  = mkResult "low" []
      "Continue with regular prenatal care and maintain healthy habits.".
Proof. reflexivity. Qed.

(** C9.  Only the value "reduced" triggers the fetal-movement rule; the
    value "none" leaves the locals as they are, so the result is the one
    of the same input without babyMovement, and alone it gives low with no
    risk factors. *)
Theorem movement_none_is_ignored :
  (forall d, babyMovement_triggers d = true
             <-> babyMovement d = present "reduced")
  /\ (forall d st, babyMovement d = present "none"
                   -> babyMovement_rule d st = st)
  /\ (forall bp w sy pw,
        assessRisk (mkData bp w (present "none") sy pw)
        = assessRisk (mkData bp w undefined sy pw))
  /\ assessRisk (mkData undefined undefined (present "none") undefined undefined)
     = mkResult "low" []
         "Continue with regular prenatal care and maintain healthy habits.".
Proof.
  split; [apply babyMovement_triggers_iff |].
  split; [| split; reflexivity].
  intros d st H. unfold babyMovement_rule, babyMovement_triggers.
  by rewrite H.
Qed.

Lemma movement_none_is_ignored_witness :
  let d := mkData (present "150/95 high") undefined (present "none")
                  undefined undefined in
  babyMovement d = present "none"
  /\ babyMovement_rule d (mkLocals ["High blood pressure"] "high")
     = mkLocals ["High blood pressure"] "high".
Proof.
  intros d. split; [reflexivity |].
  apply (proj1 (proj2 movement_none_is_ignored) d). reflexivity.
Defined.

(** C10.  An empty bloodPressure or symptoms text gives the result of the
    absent (undefined or null) field, whatever the other fields are. *)
Theorem empty_text_is_absent (bp sy : optional string) (w : optional Q)
    (bm : optional string) (pw : optional Z) :
  assessRisk (mkData (present "") w bm sy pw)
  = assessRisk (mkData undefined w bm sy pw)
  /\ assessRisk (mkData (present "") w bm sy pw)
     = assessRisk (mkData null w bm sy pw)
  /\ assessRisk (mkData bp w bm (present "") pw)
     = assessRisk (mkData bp w bm undefined pw)
  /\ assessRisk (mkData bp w bm (present "") pw)
     = assessRisk (mkData bp w bm null pw).
Proof. repeat split; reflexivity. Qed.

(** ** The handler *)

Section Handler.

Variable rt : Runtime.

Lemma get_insert_eq (o : gmap string value) (k : string) (v : value) :
  get (<[k:=v]> o) k = v.
Proof. unfold get. by rewrite lookup_insert_eq. Qed.

Lemma get_insert_ne (o : gmap string value) (k k' : string) (v : value) :
  k <> k' -> get (<[k:=v]> o) k' = get o k'.
Proof. intros H. unfold get. by rewrite lookup_insert_ne. Qed.

(** [user?.pregnancyWeeks] is of the declared type of the field. *)
Lemma as_integer_user_weeks (st : Storage) (userId : string) :
  as_integer (user_weeks (getUser st userId))
  = Some (stored_pregnancyWeeks st userId).
Proof.
  unfold stored_pregnancyWeeks, user_weeks.
  destruct (getUser st userId) as [u|]; [| done].
  destruct (user_pregnancyWeeks u) as [n|]; [| done].
  cbn [as_integer]. rewrite Qcanon.Qred_identity; [done |].
  apply Z.gcd_1_r.
Qed.

(** A number the insert schema takes is a number. *)
Lemma optional_integer_as_number (ok : Q -> bool) (v : value) (w : optional Q) :
  optional_integer ok v = Some w -> as_number v = Some w.
Proof.
  destruct v; cbn; try done. by destruct (ok q).
Qed.

(** The call reads the five fields of its argument and nothing else. *)
Lemma call_assessRisk_fields (x y : gmap string value) :
  get x "bloodPressure" = get y "bloodPressure" ->
  get x "weight" = get y "weight" ->
  get x "babyMovement" = get y "babyMovement" ->
  get x "symptoms" = get y "symptoms" ->
  get x "pregnancyWeeks" = get y "pregnancyWeeks" ->
  call_assessRisk rt x = call_assessRisk rt y.
Proof. unfold call_assessRisk. by intros -> -> -> -> ->. Qed.

(** The call on an object of the declared type returns what the typed
    function computes. *)
Lemma call_assessRisk_typed (x : gmap string value) (bp : optional string)
    (w : optional Q) (bm sy : optional string) (pw : optional Z) :
  as_string (get x "bloodPressure") = Some bp ->
  as_number (get x "weight") = Some w ->
  as_string (get x "babyMovement") = Some bm ->
  as_string (get x "symptoms") = Some sy ->
  as_integer (get x "pregnancyWeeks") = Some pw ->
  call_assessRisk rt x = Some (assessRisk (mkData bp w bm sy pw)).
Proof. unfold call_assessRisk. by intros -> -> -> -> ->. Qed.

(** What a successful [parse] says about the object parsed. *)
Lemma parse_Some (o : gmap string value) (a : InsertRiskAssessment) :
  parse rt o = Some a ->
  get o "userId" = VString (ins_userId a)
  /\ as_string (get o "bloodPressure") = Some (ins_bloodPressure a)
  /\ as_number (get o "weight") = Some (ins_weight a)
  /\ as_string (get o "babyMovement") = Some (ins_babyMovement a)
  /\ as_string (get o "symptoms") = Some (ins_symptoms a)
  /\ get o "riskLevel" = VString (ins_riskLevel a)
  /\ optional_json (get o "riskFactors") = ins_riskFactors a
  /\ as_string (get o "recommendations") = Some (ins_recommendations a).
Proof.
  unfold parse. intros H.
  destruct (get o "userId") as [| | | |uid| |]; try done.
  destruct (as_string (get o "bloodPressure")) as [bp|]; [| done].
  destruct (optional_integer _ (get o "weight")) as [w|] eqn:Hw; [| done].
  destruct (as_string (get o "babyMovement")) as [bm|]; [| done].
  destruct (as_string (get o "symptoms")) as [sy|]; [| done].
  destruct (get o "riskLevel") as [| | | |rl| |]; try done.
  destruct (as_string (get o "recommendations")) as [rc|]; [| done].
  destruct (optional_date (get o "assessmentDate")) as [ad|]; [| done].
  cbn in H. injection H as <-. cbn.
  by rewrite (optional_integer_as_number _ _ _ Hw).
Qed.

(** What a successful insert stores. *)
Lemma createRiskAssessment_Some (st st' : Storage)
    (a : InsertRiskAssessment) (row : RiskAssessment) :
  createRiskAssessment rt st a = Some (st', row) ->
  row_userId row = ins_userId a
  /\ row_riskLevel row = ins_riskLevel a
  /\ row_riskFactors row = column (ins_riskFactors a)
  /\ row_recommendations row = column (ins_recommendations a)
  /\ riskAssessments st' = (riskAssessments st ++ [row])%list
  /\ users st' = users st.
Proof.
  unfold createRiskAssessment. intros H.
  destruct (users st !! ins_userId a); [| done].
  destruct (integer_column (ins_weight a)); [| done].
  cbn in H. by injection H as <- <-.
Qed.

End Handler.

(** The object the handler gives to [parse] does not depend on the
    riskLevel, riskFactors and recommendations of the body. *)
Lemma parsed_object_overrides (body body' : gmap string value)
    (userId : string) (r : RiskResult) :
  (forall k, k <> "riskLevel" -> k <> "riskFactors" -> k <> "recommendations" ->
             body' !! k = body !! k) ->
  <["recommendations" := VString (recommendations r)]>
    (<["riskFactors" := VArray (VString <$> riskFactors r)]>
      (<["riskLevel" := VString (riskLevel r)]>
        (<["userId" := VString userId]> body')))
  = <["recommendations" := VString (recommendations r)]>
      (<["riskFactors" := VArray (VString <$> riskFactors r)]>
        (<["riskLevel" := VString (riskLevel r)]>
          (<["userId" := VString userId]> body))).
Proof.
  intros H. apply map_eq. intros k.
  destruct (decide (k = "recommendations")) as [->|H1];
    [by rewrite !lookup_insert_eq |].
  rewrite !(lookup_insert_ne _ "recommendations") by done.
  destruct (decide (k = "riskFactors")) as [->|H2];
    [by rewrite !lookup_insert_eq |].
  rewrite !(lookup_insert_ne _ "riskFactors") by done.
  destruct (decide (k = "riskLevel")) as [->|H3];
    [by rewrite !lookup_insert_eq |].
  rewrite !(lookup_insert_ne _ "riskLevel") by done.
  destruct (decide (k = "userId")) as [->|H4];
    [by rewrite !lookup_insert_eq |].
  rewrite !(lookup_insert_ne _ "userId") by done.
  by apply H.
Qed.

(** C2.  A request whose body differs from another only in riskLevel,
    riskFactors and recommendations is handled the same; and when the
    handler answers 201, the body's observation fields are of their
    declared types and the riskLevel, riskFactors and recommendations of
    the record appended to the table are the outputs of [assessRisk] on
    these fields and the stored pregnancyWeeks of the user. *)
Theorem stored_fields_are_engine_outputs (rt : Runtime) (st : Storage)
    (userId : string) (body : gmap string value) :
  (forall body',
     (forall k, k <> "riskLevel" -> k <> "riskFactors" ->
                k <> "recommendations" -> body' !! k = body !! k) ->
     postRiskAssessment rt st userId body'
     = postRiskAssessment rt st userId body)
  /\ (forall st' row,
        postRiskAssessment rt st userId body = (st', Created row) ->
        exists bp w bm sy,
          as_string (get body "bloodPressure") = Some bp
          /\ as_number (get body "weight") = Some w
          /\ as_string (get body "babyMovement") = Some bm
          /\ as_string (get body "symptoms") = Some sy
          /\ let r := assessRisk (mkData bp w bm sy
                                    (stored_pregnancyWeeks st userId)) in
             row_riskLevel row = riskLevel r
             /\ row_riskFactors row
                = Some (VArray (VString <$> riskFactors r))
             /\ row_recommendations row = Some (recommendations r)
             /\ riskAssessments st' = (riskAssessments st ++ [row])%list).
Proof.
  split.
  - intros body' H. unfold postRiskAssessment.
    rewrite (call_assessRisk_fields rt
               (<["pregnancyWeeks" := user_weeks (getUser st userId)]> body')
               (<["pregnancyWeeks" := user_weeks (getUser st userId)]> body)).
    + destruct (call_assessRisk rt _) as [r|]; [| done].
      by rewrite (parsed_object_overrides body body' userId r H).
    + rewrite !(get_insert_ne _ "pregnancyWeeks") by done.
      unfold get. by rewrite H.
    + rewrite !(get_insert_ne _ "pregnancyWeeks") by done.
      unfold get. by rewrite H.
    + rewrite !(get_insert_ne _ "pregnancyWeeks") by done.
      unfold get. by rewrite H.
    + rewrite !(get_insert_ne _ "pregnancyWeeks") by done.
      unfold get. by rewrite H.
    + by rewrite !get_insert_eq.
  - intros st' row. unfold postRiskAssessment.
    destruct (call_assessRisk rt _) as [r|] eqn:Hcall; [| done].
    destruct (parse rt _) as [a|] eqn:Hparse; [| done].
    destruct (createRiskAssessment rt st a) as [[st1 row1]|] eqn:Hins; [| done].
    intros [= -> ->].
    apply parse_Some in Hparse.
    destruct Hparse as (_ & Hbp & Hw & Hbm & Hsy & Hrl & Hrf & Hrc).
    rewrite get_insert_eq in Hrc.
    rewrite !(get_insert_ne _ "recommendations") in Hbp, Hw, Hbm, Hsy, Hrl, Hrf
      by done.
    rewrite get_insert_eq in Hrf.
    rewrite !(get_insert_ne _ "riskFactors") in Hbp, Hw, Hbm, Hsy, Hrl by done.
    rewrite get_insert_eq in Hrl.
    rewrite !(get_insert_ne _ "riskLevel") in Hbp, Hw, Hbm, Hsy by done.
    rewrite !(get_insert_ne _ "userId") in Hbp, Hw, Hbm, Hsy by done.
    exists (ins_bloodPressure a), (ins_weight a), (ins_babyMovement a),
      (ins_symptoms a).
    do 4 (split; [done |]).
    rewrite (call_assessRisk_typed rt _ (ins_bloodPressure a) (ins_weight a)
               (ins_babyMovement a) (ins_symptoms a)
               (stored_pregnancyWeeks st userId)) in Hcall.
    + injection Hcall as <-.
      apply createRiskAssessment_Some in Hins.
      destruct Hins as (_ & Hl & Hf & Hr & Hrows & _).
      injection Hrl as Hrl. injection Hrc as Hrc.
      cbn zeta. rewrite Hl, Hf, Hr, Hrows, <- Hrl, <- Hrf, <- Hrc. done.
    + by rewrite get_insert_ne.
    + by rewrite get_insert_ne.
    + by rewrite get_insert_ne.
    + by rewrite get_insert_ne.
    + rewrite get_insert_eq. apply as_integer_user_weeks.
Qed.

(** A request that supplies its own classification. *)
Lemma stored_fields_are_engine_outputs_witness :
  exists st' row,
    postRiskAssessment example_runtime example_storage "user-1" example_body
    = (st', Created row)
    /\ row_riskLevel row = "high"
    /\ row_riskFactors row
       = Some (VArray [VString "High blood pressure";
                       VString "Excessive weight gain"])
    /\ row_recommendations row
       = Some "Please contact your healthcare provider immediately and schedule an urgent appointment."
    /\ riskAssessments st' = [row].
Proof.
  eexists _, _. split; [vm_compute; reflexivity |].
  destruct (proj2 (stored_fields_are_engine_outputs example_runtime
                     example_storage "user-1" example_body) _ _ eq_refl)
    as (bp & w & bm & sy & Hbp & Hw & Hbm & Hsy & Hl & Hf & Hr & Hrows).
  injection Hbp as <-. injection Hw as <-.
  injection Hbm as <-. injection Hsy as <-.
  repeat split; assumption.
Defined.

(** The body's own pregnancyWeeks (40) is overridden by the stored one
    (10): at week 40 weight 20 would not exceed the threshold of 30. *)
Example body_weeks_are_overridden :
  riskFactors (assessRisk (mkData (present "140/90") (present 20%Q) undefined
                                  undefined (present 40%Z)))
  = ["High blood pressure"].
Proof. reflexivity. Qed.

(** A request that is not answered 201 stores nothing. *)
Lemma refused_request_stores_nothing (rt : Runtime) (st st' : Storage)
    (userId : string) (body : gmap string value) (resp : Response) :
  postRiskAssessment rt st userId body = (st', resp) ->
  resp = BadRequest \/ resp = ServerError ->
  st' = st.
Proof.
  unfold postRiskAssessment.
  destruct (call_assessRisk rt _); [| by intros [= <- _]].
  destruct (parse rt _); [| by intros [= <- _]].
  destruct (createRiskAssessment rt st _) as [[st1 row]|];
    [| by intros [= <- _]].
  intros [= _ <-] [H|H]; discriminate H.
Qed.

(** ** The examples of the specification *)

Example ex_weight :
  assessRisk (mkData undefined (present 20%Q) undefined undefined (present 10%Z))
  = mkResult "medium" ["Excessive weight gain"]
      "Monitor symptoms closely and schedule a follow-up appointment within the week.".
Proof. reflexivity. Qed.

Example ex_movement :
  assessRisk (mkData undefined undefined (present "reduced") undefined undefined)
  = mkResult "high" ["Reduced fetal movement"]
      "Please contact your healthcare provider immediately and schedule an urgent appointment.".
Proof. reflexivity. Qed.

Example ex_combined :
  assessRisk (mkData (present "140/90 high") (present 20%Q) (present "reduced")
                     (present "Heavy Bleeding today") (present 10%Z))
  = mkResult "high"
      ["High blood pressure"; "Excessive weight gain"; "Reduced fetal movement"; "Bleeding symptoms"]
      "Please contact your healthcare provider immediately and schedule an urgent appointment.".
Proof. reflexivity. Qed.

(** * More properties of the code *)

(** ** [assessRisk] *)

Lemma weight_triggers_condition (d : data) :
  weight_triggers d = true <-> weight_condition d.
Proof.
  unfold weight_condition. split.
  - intros H. destruct (weight d) as [| |w] eqn:Hw;
      [by unfold weight_triggers in H; rewrite Hw in H ..|].
    destruct (pregnancyWeeks d) as [| |pw] eqn:Hpw;
      [by unfold weight_triggers in H; rewrite Hw, Hpw in H ..|].
    exists w, pw. do 2 (split; [done |]).
    by apply (weight_triggers_iff d w pw Hw Hpw).
  - intros (w & pw & Hw & Hpw & H). by apply (weight_triggers_iff d w pw Hw Hpw).
Qed.

(** The level in terms of the rules that trigger. *)
Lemma level_by_triggers (d : data) :
  riskLevel (assessRisk d)
  = if bloodPressure_triggers d || babyMovement_triggers d || symptoms_triggers d
    then "high"
    else if weight_triggers d then "medium" else "low".
Proof.
  unfold assessRisk, run_rules, symptoms_rule, babyMovement_rule,
    weight_rule, bloodPressure_rule.
  by destruct (bloodPressure_triggers d), (weight_triggers d),
    (babyMovement_triggers d), (symptoms_triggers d).
Qed.

Lemma high_triggers_condition (d : data) :
  bloodPressure_triggers d || babyMovement_triggers d || symptoms_triggers d = true
  <-> bloodPressure_condition d \/ babyMovement_condition d \/ symptoms_condition d.
Proof.
  rewrite !orb_true_iff, bloodPressure_triggers_iff, babyMovement_triggers_iff,
    symptoms_triggers_iff.
  unfold bloodPressure_condition, babyMovement_condition, symptoms_condition.
  tauto.
Qed.

(** X1.  A babyMovement of "reduced" gives riskLevel high, the factor
    "Reduced fetal movement" and the urgent recommendation, whatever the
    other fields are. *)
Theorem movement_reduced_is_high (d : data) :
  babyMovement d = present "reduced" ->
  riskLevel (assessRisk d) = "high"
  /\ In "Reduced fetal movement" (riskFactors (assessRisk d))
  /\ recommendations (assessRisk d)
     = "Please contact your healthcare provider immediately and schedule an urgent appointment.".
Proof.
  intros H. apply babyMovement_triggers_iff in H.
  unfold assessRisk, run_rules, symptoms_rule, babyMovement_rule,
    weight_rule, bloodPressure_rule. rewrite H.
  destruct (bloodPressure_triggers d), (weight_triggers d),
    (symptoms_triggers d); cbn; tauto.
Qed.

Lemma movement_reduced_is_high_witness :
  let d := mkData (present "110/70") (present 3%Q) (present "reduced")
                  (present "none") (present 30%Z) in
  riskLevel (assessRisk d) = "high"
  /\ In "Reduced fetal movement" (riskFactors (assessRisk d)).
Proof.
  intros d. destruct (movement_reduced_is_high d eq_refl) as (H1 & H2 & _).
  by split.
Defined.

(** X2.  The riskLevel is high exactly when the bloodPressure, the
    babyMovement or the symptoms rule triggers; medium exactly when none
    of them does and the weight rule triggers; low exactly when no rule
    triggers. *)
Theorem level_characterised (d : data) :
  let urgent := bloodPressure_condition d \/ babyMovement_condition d
                \/ symptoms_condition d in
  (riskLevel (assessRisk d) = "high" <-> urgent)
  /\ (riskLevel (assessRisk d) = "medium" <-> ~ urgent /\ weight_condition d)
  /\ (riskLevel (assessRisk d) = "low" <-> ~ urgent /\ ~ weight_condition d).
Proof.
  cbn zeta. rewrite <- high_triggers_condition, <- weight_triggers_condition,
    level_by_triggers.
  destruct (_ || _ || _), (weight_triggers d);
    repeat split; intros; try done; try tauto; intuition congruence.
Qed.

Lemma level_characterised_witness :
  let d := mkData (present "118/76") (present 20%Q) (present "active")
                  undefined (present 10%Z) in
  weight_condition d /\ riskLevel (assessRisk d) = "medium".
Proof.
  intros d.
  assert (Hw : weight_condition d).
  { exists 20%Q, 10%Z. repeat split; try done. }
  split; [exact Hw |].
  apply (proj1 (proj2 (level_characterised d))). split; [| exact Hw].
  intros [H | [H | H]].
  - apply bloodPressure_triggers_iff in H. discriminate H.
  - discriminate H.
  - apply symptoms_triggers_iff in H. discriminate H.
Defined.

(** X3.  Each risk factor is listed exactly when the condition of its rule
    holds; no factor is listed twice and no other text is ever listed. *)
Theorem factors_characterised (d : data) :
  (In "High blood pressure" (riskFactors (assessRisk d))
   <-> bloodPressure_condition d)
  /\ (In "Excessive weight gain" (riskFactors (assessRisk d))
      <-> weight_condition d)
  /\ (In "Reduced fetal movement" (riskFactors (assessRisk d))
      <-> babyMovement_condition d)
  /\ (In "Bleeding symptoms" (riskFactors (assessRisk d))
      <-> symptoms_condition d)
  /\ NoDup (riskFactors (assessRisk d))
  /\ (forall f, In f (riskFactors (assessRisk d)) ->
                In f (List.map rule_factor rules)).
Proof.
  unfold bloodPressure_condition, babyMovement_condition, symptoms_condition.
  rewrite <- bloodPressure_triggers_iff, <- weight_triggers_condition,
    <- babyMovement_triggers_iff, <- symptoms_triggers_iff.
  cbn [assessRisk riskFactors]. rewrite factors_in_rule_order.
  unfold rules, triggers, List.filter.
  destruct (bloodPressure_triggers d), (weight_triggers d),
    (babyMovement_triggers d), (symptoms_triggers d); cbn;
    (repeat split; [intuition congruence .. | | tauto]);
    apply (bool_decide_unpack (NoDup _)); exact I.
Qed.

Lemma factors_characterised_witness :
  let d := mkData (present "high") undefined undefined
                  (present "some BLEEDING") undefined in
  riskFactors (assessRisk d) = ["High blood pressure"; "Bleeding symptoms"]
  /\ In "Bleeding symptoms" (List.map rule_factor rules).
Proof.
  intros d. split; [reflexivity |].
  apply (proj2 (proj2 (proj2 (proj2 (proj2 (factors_characterised d)))))).
  right. by left.
Defined.

(** X4.  The list of risk factors is empty exactly when the riskLevel is
    low. *)
Theorem no_factor_iff_low (d : data) :
  riskFactors (assessRisk d) = [] <-> riskLevel (assessRisk d) = "low".
Proof.
  unfold assessRisk, run_rules, symptoms_rule, babyMovement_rule,
    weight_rule, bloodPressure_rule.
  by destruct (bloodPressure_triggers d), (weight_triggers d),
    (babyMovement_triggers d), (symptoms_triggers d).
Qed.

Lemma no_factor_iff_low_witness :
  let d := mkData (present "120/80") (present 6%Q) (present "normal")
                  (present "tired") (present 12%Z) in
  riskFactors (assessRisk d) = [] /\ riskLevel (assessRisk d) = "low".
Proof.
  intros d. split; [reflexivity |].
  apply (proj1 (no_factor_iff_low d)). reflexivity.
Defined.

(** X5.  A field that is null (a column that holds NULL, a JSON null) is
    read as a field that is absent: the result is the same. *)
Theorem null_is_absent (bp : optional string) (w : optional Q)
    (bm sy : optional string) (pw : optional Z) :
  assessRisk (mkData (denull bp) (denull w) (denull bm) (denull sy) (denull pw))
  = assessRisk (mkData bp w bm sy pw).
Proof. by destruct bp, w, bm, sy, pw. Qed.

Lemma fills_triggers (d d' : data) (r : Rule) :
  extends d d' -> triggers d r = true -> triggers d' r = true.
Proof.
  intros (Hbp & Hw & Hbm & Hsy & Hpw).
  destruct r; unfold triggers, bloodPressure_triggers, weight_triggers,
    babyMovement_triggers, symptoms_triggers.
  - by destruct Hbp as [<- | [-> | ->]].
  - destruct Hw as [<- | [-> | ->]]; [| done | done].
    destruct Hpw as [<- | [-> | ->]]; [done | |]; by destruct (weight d).
  - by destruct Hbm as [<- | [-> | ->]].
  - by destruct Hsy as [<- | [-> | ->]].
Qed.

(** X6.  Supplying observations that were absent never lowers the riskLevel
    and never removes a risk factor: the factors before are a sublist of the
    factors after. *)
Theorem more_observations_raise (d d' : data) :
  extends d d' ->
  severity (riskLevel (assessRisk d)) <= severity (riskLevel (assessRisk d'))
  /\ sublist (riskFactors (assessRisk d)) (riskFactors (assessRisk d')).
Proof.
  intros H.
  pose proof (fills_triggers d d' BloodPressureRule H) as H1.
  pose proof (fills_triggers d d' WeightRule H) as H2.
  pose proof (fills_triggers d d' BabyMovementRule H) as H3.
  pose proof (fills_triggers d d' SymptomsRule H) as H4.
  cbn [assessRisk riskLevel riskFactors].
  rewrite !level_is_max, !factors_in_rule_order.
  unfold rules, List.filter. cbn [triggers] in *.
  destruct (bloodPressure_triggers d), (weight_triggers d),
    (babyMovement_triggers d), (symptoms_triggers d);
    try rewrite (H1 eq_refl); try rewrite (H2 eq_refl);
    try rewrite (H3 eq_refl); try rewrite (H4 eq_refl);
    destruct (bloodPressure_triggers d'), (weight_triggers d'),
      (babyMovement_triggers d'), (symptoms_triggers d');
    (split; [cbn; lia | cbn; repeat constructor]).
Qed.

Lemma more_observations_raise_witness :
  let d := mkData undefined (present 20%Q) undefined undefined (present 10%Z) in
  let d' := mkData (present "145/95") (present 20%Q) undefined null
                   (present 10%Z) in
  extends d d'
  /\ sublist (riskFactors (assessRisk d)) (riskFactors (assessRisk d')).
Proof.
  intros d d'.
  assert (H : extends d d').
  { repeat split; unfold fills; cbn; auto. }
  split; [exact H |]. exact (proj2 (more_observations_raise d d' H)).
Defined.

(** ** The [POST /api/risk-assessments] handler *)

(** [parse] reads the columns of the schema and nothing else. *)
Lemma parse_fields (rt : Runtime) (o o' : gmap string value) :
  (forall k, In k ["userId"; "bloodPressure"; "weight"; "babyMovement";
                   "symptoms"; "riskLevel"; "riskFactors"; "recommendations";
                   "assessmentDate"] -> get o k = get o' k) ->
  parse rt o = parse rt o'.
Proof.
  intros H. unfold parse.
  rewrite (H "userId"), (H "bloodPressure"), (H "weight"), (H "babyMovement"),
    (H "symptoms"), (H "riskLevel"), (H "riskFactors"), (H "recommendations"),
    (H "assessmentDate"); [done | cbn; tauto ..].
Qed.

(** X7.  The handler appends at most one row: on 201 the table is the old
    one followed by the record answered, on 400 and 500 the storage is
    unchanged; the rows already stored and the users are never touched. *)
Theorem post_appends_or_keeps (rt : Runtime) (st st' : Storage)
    (userId : string) (body : gmap string value) (resp : Response) :
  postRiskAssessment rt st userId body = (st', resp) ->
  users st' = users st
  /\ ((exists row, resp = Created row
                   /\ riskAssessments st' = (riskAssessments st ++ [row])%list)
      \/ ((resp = BadRequest \/ resp = ServerError) /\ st' = st)).
Proof.
  unfold postRiskAssessment.
  destruct (call_assessRisk rt _); [| intros [= <- <-]; tauto].
  destruct (parse rt _) as [a|]; [| intros [= <- <-]; tauto].
  destruct (createRiskAssessment rt st a) as [[st1 row]|] eqn:Hins;
    [| intros [= <- <-]; tauto].
  intros [= <- <-]. apply createRiskAssessment_Some in Hins.
  destruct Hins as (_ & _ & _ & _ & Hrows & Husers).
  split; [done |]. left. by exists row.
Qed.

Lemma post_appends_or_keeps_witness :
  let body := <["weight" := VNumber 20.5]> example_body in
  postRiskAssessment example_runtime example_storage "user-1" body
  = (example_storage, BadRequest)
  /\ users example_storage = users example_storage.
Proof.
  intros body.
  assert (H : postRiskAssessment example_runtime example_storage "user-1" body
              = (example_storage, BadRequest)) by (vm_compute; reflexivity).
  split; [exact H |].
  exact (proj1 (post_appends_or_keeps example_runtime example_storage
                  example_storage "user-1" body BadRequest H)).
Defined.

(** X8.  The handler reads five keys of the body: bloodPressure, weight,
    babyMovement, symptoms and assessmentDate.  Two bodies that agree on
    them are handled the same, so a userId, id, createdAt or
    pregnancyWeeks sent by the client has no effect. *)
Theorem post_reads_five_keys (rt : Runtime) (st : Storage) (userId : string)
    (body body' : gmap string value) :
  (forall k, In k ["bloodPressure"; "weight"; "babyMovement"; "symptoms";
                   "assessmentDate"] -> get body' k = get body k) ->
  postRiskAssessment rt st userId body' = postRiskAssessment rt st userId body.
Proof.
  intros H. unfold postRiskAssessment.
  rewrite (call_assessRisk_fields rt
             (<["pregnancyWeeks" := user_weeks (getUser st userId)]> body')
             (<["pregnancyWeeks" := user_weeks (getUser st userId)]> body)).
  - destruct (call_assessRisk rt _) as [r|]; [| done].
    rewrite (parse_fields rt
               (<["recommendations" := VString (recommendations r)]>
                 (<["riskFactors" := VArray (VString <$> riskFactors r)]>
                   (<["riskLevel" := VString (riskLevel r)]>
                     (<["userId" := VString userId]> body'))))
               (<["recommendations" := VString (recommendations r)]>
                 (<["riskFactors" := VArray (VString <$> riskFactors r)]>
                   (<["riskLevel" := VString (riskLevel r)]>
                     (<["userId" := VString userId]> body))))); [done |].
    intros k Hk. cbn in Hk.
    destruct Hk as [<-|[<-|[<-|[<-|[<-|[<-|[<-|[<-|[<-|[]]]]]]]]]];
      repeat first [ rewrite get_insert_eq | rewrite get_insert_ne by done ];
      try done; apply H; cbn; tauto.
  - rewrite !(get_insert_ne _ "pregnancyWeeks") by done. apply H. cbn. tauto.
  - rewrite !(get_insert_ne _ "pregnancyWeeks") by done. apply H. cbn. tauto.
  - rewrite !(get_insert_ne _ "pregnancyWeeks") by done. apply H. cbn. tauto.
  - rewrite !(get_insert_ne _ "pregnancyWeeks") by done. apply H. cbn. tauto.
  - by rewrite !get_insert_eq.
Qed.

Lemma post_reads_five_keys_witness :
  postRiskAssessment example_runtime example_storage "user-1"
    (<["userId" := VString "user-2"]> (<["id" := VString "chosen"]> example_body))
  = postRiskAssessment example_runtime example_storage "user-1" example_body.
Proof.
  apply post_reads_five_keys. intros k Hk. cbn in Hk.
  destruct Hk as [<-|[<-|[<-|[<-|[<-|[]]]]]]; reflexivity.
Defined.

(** [parse] succeeds exactly when each column is given at its type. *)
Lemma parse_iff (rt : Runtime) (o : gmap string value)
    (a : InsertRiskAssessment) :
  parse rt o = Some a
  <-> get o "userId" = VString (ins_userId a)
      /\ as_string (get o "bloodPressure") = Some (ins_bloodPressure a)
      /\ optional_integer (integer_schema rt) (get o "weight")
         = Some (ins_weight a)
      /\ as_string (get o "babyMovement") = Some (ins_babyMovement a)
      /\ as_string (get o "symptoms") = Some (ins_symptoms a)
      /\ get o "riskLevel" = VString (ins_riskLevel a)
      /\ optional_json (get o "riskFactors") = ins_riskFactors a
      /\ as_string (get o "recommendations") = Some (ins_recommendations a)
      /\ optional_date (get o "assessmentDate") = Some (ins_assessmentDate a).
Proof.
  unfold parse. split.
  - intros H.
    destruct (get o "userId") as [| | | |uid| |]; try done.
    destruct (as_string (get o "bloodPressure")) as [bp|]; [| done].
    destruct (optional_integer _ (get o "weight")) as [w|]; [| done].
    destruct (as_string (get o "babyMovement")) as [bm|]; [| done].
    destruct (as_string (get o "symptoms")) as [sy|]; [| done].
    destruct (get o "riskLevel") as [| | | |rl| |]; try done.
    destruct (as_string (get o "recommendations")) as [rc|]; [| done].
    destruct (optional_date (get o "assessmentDate")) as [ad|]; [| done].
    cbn in H. by injection H as <-.
  - destruct a. cbn.
    by intros (-> & -> & -> & -> & -> & -> & -> & -> & ->).
Qed.

(** The number an [integer] column stores is the number given. *)
Lemma integer_column_present (q : Q) (z : option Z) :
  integer_column (present q) = Some z ->
  exists n, z = Some n /\ (q == inject_Z n)%Q
            /\ (-2147483648 <= n <= 2147483647)%Z.
Proof.
  unfold integer_column.
  destruct (Pos.eqb_spec (Qden (Qred q)) 1) as [Hden|]; [| done].
  destruct (Z.leb_spec (-2147483648) (Qnum (Qred q))); [| done].
  destruct (Z.leb_spec (Qnum (Qred q)) 2147483647); [| done].
  intros [= <-]. exists (Qnum (Qred q)). split; [done |].
  split; [| lia].
  rewrite <- (Qred_correct q) at 1.
  destruct (Qred q) as [n dn]. cbn in *. by subst dn.
Qed.

(** The steps of a request answered 201. *)
Lemma post_Created (rt : Runtime) (st st' : Storage) (userId : string)
    (body : gmap string value) (row : RiskAssessment) :
  postRiskAssessment rt st userId body = (st', Created row) ->
  exists r a,
    call_assessRisk rt
      (<["pregnancyWeeks" := user_weeks (getUser st userId)]> body) = Some r
    /\ parse rt
         (<["recommendations" := VString (recommendations r)]>
           (<["riskFactors" := VArray (VString <$> riskFactors r)]>
             (<["riskLevel" := VString (riskLevel r)]>
               (<["userId" := VString userId]> body)))) = Some a
    /\ createRiskAssessment rt st a = Some (st', row).
Proof.
  unfold postRiskAssessment.
  destruct (call_assessRisk rt _) as [r|]; [| done].
  destruct (parse rt _) as [a|] eqn:Hparse; [| done].
  destruct (createRiskAssessment rt st a) as [[st1 row1]|] eqn:Hins; [| done].
  intros [= -> ->]. by exists r, a.
Qed.

Lemma integer_column_holds (w : optional Q) (c : option Z) :
  integer_column w = Some c <-> holds_weight w c.
Proof.
  destruct w as [| |q]; cbn; [split; congruence ..|]. split.
  - apply integer_column_present.
  - intros (n & -> & Hq & Hn). unfold integer_column.
    apply Qred_complete in Hq. rewrite Hq.
    rewrite (Qcanon.Qred_identity (inject_Z n)) by apply Z.gcd_1_r.
    cbn. destruct (Z.leb_spec (-2147483648) n); [| lia].
    by destruct (Z.leb_spec n 2147483647); [| lia].
Qed.

(** X9.  The record answered with 201 belongs to the authenticated user,
    who is a stored user; its id and createdAt are the defaults of the
    table; its observation columns hold what the body gave, the texts as
    they are (NULL for an absent or null field) and the weight as the
    32-bit integer it is; its assessmentDate is now, or NULL when the
    body gave null. *)
Theorem created_record_fields (rt : Runtime) (st st' : Storage)
    (userId : string) (body : gmap string value) (row : RiskAssessment) :
  postRiskAssessment rt st userId body = (st', Created row) ->
  row_userId row = userId
  /\ is_Some (getUser st userId)
  /\ row_id row = gen_random_uuid rt (row_id <$> riskAssessments st)
  /\ row_createdAt row = Some (now rt)
  /\ exists bp w bm sy ad,
       as_string (get body "bloodPressure") = Some bp
       /\ row_bloodPressure row = column bp
       /\ as_number (get body "weight") = Some w
       /\ holds_weight w (row_weight row)
       /\ as_string (get body "babyMovement") = Some bm
       /\ row_babyMovement row = column bm
       /\ as_string (get body "symptoms") = Some sy
       /\ row_symptoms row = column sy
       /\ optional_date (get body "assessmentDate") = Some ad
       /\ row_assessmentDate row = column_default (now rt) ad.
Proof.
  intros H. apply post_Created in H. destruct H as (r & a & _ & Hparse & Hins).
  apply parse_iff in Hparse.
  destruct Hparse as (Hu & Hbp & Hw & Hbm & Hsy & _ & _ & _ & Had).
  repeat first [ rewrite get_insert_eq in Hu
               | rewrite get_insert_ne in Hu by done ].
  rewrite !get_insert_ne in Hbp, Hw, Hbm, Hsy, Had by done.
  injection Hu as Hu.
  unfold createRiskAssessment in Hins. rewrite <- Hu in Hins.
  unfold getUser. destruct (users st !! userId) as [u|]; [| done].
  destruct (integer_column (ins_weight a)) as [c|] eqn:Hc; [| done].
  cbn in Hins. injection Hins as <- <-. cbn.
  split; [done |]. split; [by exists u |]. do 2 (split; [done |]).
  exists (ins_bloodPressure a), (ins_weight a), (ins_babyMovement a),
    (ins_symptoms a), (ins_assessmentDate a).
  repeat split; try done.
  - by apply optional_integer_as_number in Hw.
  - by apply integer_column_holds.
Qed.

Lemma created_record_fields_witness :
  let body := <["userId" := VString "user-2"]> example_body in
  exists st' row,
    postRiskAssessment example_runtime example_storage "user-1" body
    = (st', Created row)
    /\ row_userId row = "user-1"
    /\ row_createdAt row = Some 1700000000%Z.
Proof.
  intros body.
  destruct (postRiskAssessment example_runtime example_storage "user-1" body)
    as [st' [row| |]] eqn:H; [| by vm_compute in H ..].
  exists st', row. split; [done |].
  destruct (created_record_fields example_runtime example_storage st'
              "user-1" body row H) as (H1 & _ & _ & H2 & _).
  by split.
Defined.



(** ** Reading the assessments back *)

#[local] Instance precedes_total : Total precedes.
Proof.
  intros r1 r2. unfold precedes, later_or_equal.
  destruct (row_assessmentDate r1) as [x|], (row_assessmentDate r2) as [y|];
    auto. rewrite !Z.leb_le. lia.
Qed.

#[local] Instance precedes_trans : Transitive precedes.
Proof.
  intros r1 r2 r3. unfold precedes, later_or_equal.
  destruct (row_assessmentDate r1) as [x|], (row_assessmentDate r2) as [y|],
    (row_assessmentDate r3) as [z|]; try done. rewrite !Z.leb_le. lia.
Qed.

Lemma history_elem_of (st : Storage) (userId : string) (r : RiskAssessment) :
  r ∈ getUserRiskAssessments st userId
  <-> r ∈ riskAssessments st /\ row_userId r = userId.
Proof.
  unfold getUserRiskAssessments.
  rewrite merge_sort_Permutation, list_elem_of_filter. tauto.
Qed.

Lemma history_sorted (st : Storage) (userId : string) :
  StronglySorted precedes (getUserRiskAssessments st userId).
Proof. apply StronglySorted_merge_sort; apply _. Qed.



(** X11.  The history of a user holds the rows of the table that belong to
    the user, each as often as the table does and no other row, the later
    assessmentDate first. *)
Theorem history_is_users_rows (st : Storage) (userId : string) :
  getUserRiskAssessments st userId
    ≡ₚ filter (fun r => row_userId r = userId) (riskAssessments st)
  /\ (forall r, r ∈ getUserRiskAssessments st userId
                <-> r ∈ riskAssessments st /\ row_userId r = userId)
  /\ StronglySorted precedes (getUserRiskAssessments st userId).
Proof.
  split; [apply merge_sort_Permutation |].
  split; [apply history_elem_of | apply history_sorted].
Qed.



(** What a request answered 201 appends. *)
Lemma post_Created_row (rt : Runtime) (st st' : Storage) (userId : string)
    (body : gmap string value) (row : RiskAssessment) :
  postRiskAssessment rt st userId body = (st', Created row) ->
  riskAssessments st' = (riskAssessments st ++ [row])%list
  /\ row_userId row = userId
  /\ (row_assessmentDate row = Some (now rt) \/ row_assessmentDate row = None).
Proof.
  intros H. apply post_Created in H. destruct H as (r & a & _ & Hparse & Hins).
  apply parse_iff in Hparse.
  destruct Hparse as (Hu & _ & _ & _ & _ & _ & _ & _ & Had).
  repeat first [ rewrite get_insert_eq in Hu
               | rewrite get_insert_ne in Hu by done ].
  injection Hu as Hu.
  unfold createRiskAssessment in Hins.
  destruct (users st !! ins_userId a); [| done].
  destruct (integer_column (ins_weight a)); [| done].
  cbn in Hins. injection Hins as <- <-. cbn.
  split; [done |]. split; [done |].
  destruct (get _ "assessmentDate"); try done;
    injection Had as <-; cbn; auto.
Qed.

(** X13.  After a request answered 201 the history of the user holds the
    new record besides the rows it held, and the history of every other
    user is what it was. *)
Theorem created_record_is_in_history (rt : Runtime) (st st' : Storage)
    (userId : string) (body : gmap string value) (row : RiskAssessment) :
  postRiskAssessment rt st userId body = (st', Created row) ->
  getUserRiskAssessments st' userId ≡ₚ row :: getUserRiskAssessments st userId
  /\ forall other, other <> userId ->
       getUserRiskAssessments st' other = getUserRiskAssessments st other.
Proof.
  intros H. apply post_Created_row in H. destruct H as (Hrows & Hu & _).
  unfold getUserRiskAssessments. rewrite Hrows, !filter_app. split.
  - rewrite !merge_sort_Permutation.
    rewrite (filter_cons_True (fun r => row_userId r = userId) row [])
      by exact Hu.
    rewrite filter_nil. by rewrite <- Permutation_cons_append.
  - intros other Hne. rewrite filter_app.
    rewrite (filter_cons_False (fun r => row_userId r = other) row [])
      by congruence.
    by rewrite filter_nil, app_nil_r.
Qed.

Lemma created_record_is_in_history_witness :
  exists st' row,
    postRiskAssessment example_runtime example_storage "user-1" example_body
    = (st', Created row)
    /\ getUserRiskAssessments st' "user-1"
       ≡ₚ row :: getUserRiskAssessments example_storage "user-1".
Proof.
  destruct (postRiskAssessment example_runtime example_storage "user-1"
              example_body) as [st' [row| |]] eqn:H; [| by vm_compute in H ..].
  exists st', row. split; [done |].
  exact (proj1 (created_record_is_in_history example_runtime example_storage
                  st' "user-1" example_body row H)).
Defined.



(** ** The client pages *)

Section ClientProperties.

Variable Date_parse : string -> option Z.

Lemma calculateWeeks_Some (today : Z) (lmp : string) (w : Z) :
  calculateWeeks Date_parse today lmp = Some w
  <-> lmp <> "" /\ exists t, Date_parse lmp = Some t /\ (t <= today)%Z
                             /\ w = ((today - t) / 604800000)%Z.
Proof.
  unfold calculateWeeks, Js.truthy_string. rewrite negb_involutive.
  change (1000 * 60 * 60 * 24 * 7)%Z with 604800000%Z.
  destruct (String.eqb_spec lmp "") as [-> | Hne].
  - split; [done | by intros [? _]].
  - destruct (Date_parse lmp) as [t|].
    + destruct (Z.ltb_spec (today - t) 0).
      * split; [done |]. intros (_ & t' & [= <-] & Hle & _). lia.
      * split.
        -- intros [= <-]. split; [done |]. exists t.
           split; [done |]. split; [lia | done].
        -- by intros (_ & t' & [= <-] & _ & ->).
    + split; [done |]. by intros (_ & t' & Ht & _).
Qed.

(** X15.  When [calculateWeeks] returns a number, the date is valid and
    not in the future, and the number is the count of whole weeks since:
    it is not negative, and the time since the date is at least that many
    weeks and less than one week more. *)
Theorem calculateWeeks_whole_weeks (today : Z) (lmp : string) (w : Z) :
  calculateWeeks Date_parse today lmp = Some w ->
  exists t, Date_parse lmp = Some t
            /\ (t <= today)%Z
            /\ (0 <= w)%Z
            /\ (w * 604800000 <= today - t < (w + 1) * 604800000)%Z.
Proof.
  intros H. apply calculateWeeks_Some in H.
  destruct H as (_ & t & Ht & Hle & ->). exists t.
  split; [done |]. split; [done |].
  pose proof (Z.mod_pos_bound (today - t) 604800000 eq_refl) as Hm.
  pose proof (Z.div_mod (today - t) 604800000) as Hd.
  split; [apply Z.div_pos; lia | lia].
Qed.

(** X16.  [calculateWeeks] returns null exactly when the text is empty,
    is no valid date, or is a date in the future. *)
Theorem calculateWeeks_null_iff (today : Z) (lmp : string) :
  calculateWeeks Date_parse today lmp = None
  <-> lmp = "" \/ Date_parse lmp = None
      \/ exists t, Date_parse lmp = Some t /\ (today < t)%Z.
Proof.
  unfold calculateWeeks, Js.truthy_string. rewrite negb_involutive.
  destruct (String.eqb_spec lmp "") as [-> | Hne]; [tauto |].
  destruct (Date_parse lmp) as [t|]; [| tauto].
  destruct (Z.ltb_spec (today - t) 0).
  - split; [| done]. intros _. right. right. exists t. split; [done | lia].
  - split; [done |]. intros [? | [? | (t' & [= <-] & Hlt)]]; [done | done | lia].
Qed.

(** X17.  Seven days later the count is one more, and it never goes down
    as time passes. *)
Theorem calculateWeeks_advances (today : Z) (lmp : string) (w : Z) :
  calculateWeeks Date_parse today lmp = Some w ->
  calculateWeeks Date_parse (today + 604800000) lmp = Some (w + 1)%Z
  /\ forall later, (today <= later)%Z ->
       exists w', calculateWeeks Date_parse later lmp = Some w' /\ (w <= w')%Z.
Proof.
  intros H. apply calculateWeeks_Some in H.
  destruct H as (Hne & t & Ht & Hle & ->). split.
  - apply calculateWeeks_Some. split; [done |]. exists t.
    split; [done |]. split; [lia |].
    replace (today + 604800000 - t)%Z with (today - t + 1 * 604800000)%Z by lia.
    by rewrite Z.div_add.
  - intros later Hl. exists ((later - t) / 604800000)%Z. split.
    + apply calculateWeeks_Some. split; [done |]. exists t.
      split; [done |]. split; [lia | done].
    + apply Z.div_le_mono; lia.
Qed.

End ClientProperties.

Lemma calculateWeeks_whole_weeks_witness :
  calculateWeeks example_Date_parse 1709251200000 "2024-01-01" = Some 8%Z
  /\ exists t, example_Date_parse "2024-01-01" = Some t
               /\ (8 * 604800000 <= 1709251200000 - t < (8 + 1) * 604800000)%Z.
Proof.
  split; [reflexivity |].
  destruct (calculateWeeks_whole_weeks example_Date_parse 1709251200000
              "2024-01-01" 8 eq_refl) as (t & Ht & _ & _ & Hb).
  by exists t.
Defined.

Lemma calculateWeeks_null_iff_witness :
  calculateWeeks example_Date_parse 1704067200000 "2024-03-01" = None.
Proof.
  apply calculateWeeks_null_iff. right. right.
  exists 1709251200000%Z. split; reflexivity.
Defined.

Lemma calculateWeeks_advances_witness :
  calculateWeeks example_Date_parse 1709251200000 "2024-01-01" = Some 8%Z
  /\ calculateWeeks example_Date_parse (1709251200000 + 604800000) "2024-01-01"
     = Some (8 + 1)%Z.
Proof.
  split; [reflexivity |].
  exact (proj1 (calculateWeeks_advances example_Date_parse 1709251200000
                  "2024-01-01" 8 eq_refl)).
Defined.

(** X18.  [formatTimeAgo] of a valid date: "Just now" for less than an
    hour ago (a date in the future included); the whole hours, 1 to 23,
    for less than a day ago; the whole days, 1 to 6, for less than seven
    days ago; the date itself from seven days on. *)
Theorem formatTimeAgo_buckets (Date_parse : string -> option Z)
    (toLocaleDateString : option Z -> string) (now : Z) (date : string)
    (t : Z) :
  Date_parse date = Some t ->
  ((now - t < 3600000)%Z ->
   formatTimeAgo Date_parse toLocaleDateString now date = "Just now")
  /\ ((3600000 <= now - t < 86400000)%Z ->
      let h := ((now - t) / 3600000)%Z in
      (1 <= h <= 23)%Z
      /\ formatTimeAgo Date_parse toLocaleDateString now date
         = pretty h +:+ "h ago")
  /\ ((86400000 <= now - t < 604800000)%Z ->
      let d := ((now - t) / 86400000)%Z in
      (1 <= d <= 6)%Z
      /\ formatTimeAgo Date_parse toLocaleDateString now date
         = pretty d +:+ "d ago")
  /\ ((604800000 <= now - t)%Z ->
      formatTimeAgo Date_parse toLocaleDateString now date
      = toLocaleDateString (Some t)).
Proof.
  intros Ht. unfold formatTimeAgo. rewrite Ht.
  generalize (pretty (A:=Z)). intros show.
  replace (1000 * 60 * 60)%Z with 3600000%Z by reflexivity.
  assert (Hdays : ((now - t) / 3600000 / 24 = (now - t) / 86400000)%Z)
    by (rewrite Z.div_div by lia; reflexivity).
  rewrite Hdays.
  pose proof (Z.mod_pos_bound (now - t) 3600000 eq_refl) as Hm1.
  pose proof (Z.div_mod (now - t) 3600000) as Hd1.
  pose proof (Z.mod_pos_bound (now - t) 86400000 eq_refl) as Hm2.
  pose proof (Z.div_mod (now - t) 86400000) as Hd2.
  split; [| split; [| split]]; intros Hrange.
  - destruct (Z.ltb_spec ((now - t) / 3600000) 1); [reflexivity | lia].
  - split; [lia |].
    destruct (Z.ltb_spec ((now - t) / 3600000) 1); [lia |].
    destruct (Z.ltb_spec ((now - t) / 3600000) 24); [reflexivity | lia].
  - split; [lia |].
    destruct (Z.ltb_spec ((now - t) / 3600000) 1); [lia |].
    destruct (Z.ltb_spec ((now - t) / 3600000) 24); [lia |].
    destruct (Z.ltb_spec ((now - t) / 86400000) 7); [reflexivity | lia].
  - destruct (Z.ltb_spec ((now - t) / 3600000) 1); [lia |].
    destruct (Z.ltb_spec ((now - t) / 3600000) 24); [lia |].
    destruct (Z.ltb_spec ((now - t) / 86400000) 7); [lia | reflexivity].
Qed.

Lemma formatTimeAgo_buckets_witness :
  formatTimeAgo example_Date_parse (fun _ => "1/1/2024")
    (1704067200000 + 2 * 86400000 + 5) "2024-01-01"
  = "2d ago".
Proof.
  destruct (formatTimeAgo_buckets example_Date_parse (fun _ => "1/1/2024")
              (1704067200000 + 2 * 86400000 + 5) "2024-01-01" 1704067200000
              eq_refl) as (_ & _ & H & _).
  destruct H as [_ H]; [lia |]. rewrite H. vm_compute. reflexivity.
Defined.

Section ImmunizationPage.

Variable Date_parse : string -> option Z.
Variable now : Z.

Lemma filter_or_empty_In (p : Immunization -> bool)
    (immunizations : option (list Immunization)) (imm : Immunization) :
  In imm (filter_or_empty p immunizations)
  <-> exists l, immunizations = Some l /\ In imm l /\ p imm = true.
Proof.
  destruct immunizations as [l|]; cbn.
  - rewrite filter_In. split; [intros [? ?]; by exists l |].
    by intros (l' & [= <-] & ? & ?).
  - split; [done | by intros (l' & ? & _)].
Qed.

(** X19.  Every overdue immunization is also counted as upcoming (the
    overdue rows are a sublist of the upcoming ones), no row is both
    upcoming and completed, and a row whose status is neither "pending"
    nor "completed" is in none of the three lists. *)
Theorem immunization_lists (immunizations : option (list Immunization)) :
  sublist (overdueImmunizations Date_parse now immunizations)
          (upcomingImmunizations immunizations)
  /\ length (overdueImmunizations Date_parse now immunizations)
     <= length (upcomingImmunizations immunizations)
  /\ (forall imm, In imm (upcomingImmunizations immunizations) ->
                  ~ In imm (completedImmunizations immunizations))
  /\ (forall imm, imm_status imm <> "pending" ->
                  imm_status imm <> "completed" ->
                  ~ In imm (upcomingImmunizations immunizations)
                  /\ ~ In imm (completedImmunizations immunizations)
                  /\ ~ In imm (overdueImmunizations Date_parse now
                                 immunizations)).
Proof.
  assert (Hsub : sublist (overdueImmunizations Date_parse now immunizations)
                         (upcomingImmunizations immunizations)).
  { unfold overdueImmunizations, upcomingImmunizations.
    destruct immunizations as [l|]; cbn; [| constructor].
    induction l as [|imm l IH]; cbn; [constructor |].
    destruct (String.eqb (imm_status imm) "pending"); cbn; [| done].
    destruct (before_now _ _ _); by constructor. }
  split; [done |]. split; [by apply sublist_length |]. split.
  - intros imm. unfold upcomingImmunizations, completedImmunizations.
    rewrite !filter_or_empty_In.
    intros (l & _ & _ & H1) (l' & _ & _ & H2).
    apply String.eqb_eq in H1, H2. congruence.
  - intros imm H1 H2.
    unfold upcomingImmunizations, completedImmunizations, overdueImmunizations.
    rewrite !filter_or_empty_In.
    apply String.eqb_neq in H1, H2.
    repeat split; intros (l & _ & _ & H); rewrite ?H1, ?H2 in H; done.
Qed.


End ImmunizationPage.

Lemma immunization_lists_witness :
  let imm := mkImmunization "BCG" "overdue" "2024-01-01" in
  ~ In imm (upcomingImmunizations (Some [imm]))
  /\ ~ In imm (completedImmunizations (Some [imm]))
  /\ ~ In imm (overdueImmunizations example_Date_parse 1709251200000
                 (Some [imm])).
Proof.
  intros imm.
  apply (proj2 (proj2 (proj2 (immunization_lists example_Date_parse
                                1709251200000 (Some [imm])))));
    discriminate.
Defined.


(** X21.  The badge of a level that [assessRisk] returns is never the
    fallback "outline": it is "destructive" for the urgent
    recommendation, "secondary" for the follow-up one and "default" for
    the regular-care one. *)
Theorem risk_badge_of_engine_output (d : data) :
  let r := assessRisk d in
  getRiskBadgeVariant (riskLevel r) <> "outline"
  /\ (getRiskBadgeVariant (riskLevel r) = "destructive"
      <-> recommendations r
          = "Please contact your healthcare provider immediately and schedule an urgent appointment.")
  /\ (getRiskBadgeVariant (riskLevel r) = "secondary"
      <-> recommendations r
          = "Monitor symptoms closely and schedule a follow-up appointment within the week.")
  /\ (getRiskBadgeVariant (riskLevel r) = "default"
      <-> recommendations r
          = "Continue with regular prenatal care and maintain healthy habits.").
Proof.
  cbn zeta.
  change (recommendations (assessRisk d))
    with (recommendation_for (riskLevel (assessRisk d))).
  rewrite level_by_triggers.
  destruct (_ || _ || _), (weight_triggers d); cbn;
    repeat split; intros; done.
Qed.

(** ** Liking a post *)

Section Likes.

Variable now : timestamp.
Variable id : string.




Lemma update_likes_no_match (posts : list CommunityPost) :
  (forall p, In p posts -> post_id p <> id) ->
  update_likes now id posts = Some (posts, []).
Proof.
  induction posts as [|p rest IH]; intros H; [done |].
  cbn [update_likes]. rewrite IH by (intros q Hq; apply H; by right).
  assert (Hp : post_id p <> id) by (apply H; by left).
  apply String.eqb_neq in Hp. by rewrite Hp.
Qed.



End Likes.



(** One like on a table whose ids are distinct. *)
Lemma update_likes_step (now : timestamp) (id : string)
    (posts : list CommunityPost) (n : Z) :
  NoDup (List.map post_id posts) ->
  likes_of posts id = Some (Some n) ->
  (n + 1 <= 2147483647)%Z ->
  exists posts' returned,
    update_likes now id posts = Some (posts', returned)
    /\ List.map post_id posts' = List.map post_id posts
    /\ likes_of posts' id = Some (Some (n + 1)%Z).
Proof.
  unfold likes_of. induction posts as [|p rest IH]; [done |].
  intros Hnd Hlikes Hmax. cbn [List.map] in Hnd. apply NoDup_cons in Hnd.
  destruct Hnd as [Hp Hnd]. cbn [update_likes List.find] in *.
  destruct (String.eqb_spec (post_id p) id) as [Hid | Hid].
  - rewrite update_likes_no_match.
    + cbn in Hlikes. injection Hlikes as Hlikes.
      unfold liked, likes_plus_one. rewrite Hlikes.
      destruct (Z.leb_spec (n + 1) 2147483647); [| lia]. cbn.
      eexists _, _. split; [done |]. cbn. split; [done |].
      by rewrite Hid, String.eqb_refl.
    + intros q Hq Hqid. apply Hp. rewrite list_elem_of_In, in_map_iff.
      exists q. split; [congruence | done].
  - destruct (IH Hnd Hlikes Hmax) as (rest' & returned & Hup & Hids & Hl).
    rewrite Hup. eexists _, _. split; [done |]. cbn. rewrite Hids.
    split; [done |]. apply String.eqb_neq in Hid. by rewrite Hid.
Qed.

(** X24.  Likes are not tied to who sends them: on a table whose ids are
    distinct, the request repeated k times raises the likes of the post
    by k, as long as the count stays a 32-bit integer. *)
Theorem likes_accumulate (now : timestamp) (id : string) (k : nat)
    (posts : list CommunityPost) (n : Z) :
  NoDup (List.map post_id posts) ->
  likes_of posts id = Some (Some n) ->
  (n + Z.of_nat k <= 2147483647)%Z ->
  likes_of (postLike_times k now posts id) id = Some (Some (n + Z.of_nat k)%Z).
Proof.
  revert posts n. induction k as [|k IH]; intros posts n Hnd Hlikes Hmax.
  - cbn [postLike_times]. rewrite Hlikes. do 2 f_equal. lia.
  - cbn [postLike_times].
    destruct (update_likes_step now id posts n Hnd Hlikes)
      as (posts' & returned & Hup & Hids & Hl); [lia |].
    assert (Hfst : fst (postLike now posts id) = posts').
    { unfold postLike, likeCommunityPost. rewrite Hup.
      by destruct (head returned). }
    rewrite Hfst, (IH posts' (n + 1)%Z); [do 2 f_equal; lia | | done | lia].
    by rewrite Hids.
Qed.

Lemma likes_accumulate_witness :
  likes_of (postLike_times 3 5%Z example_posts "post-2") "post-2"
  = Some (Some (41 + Z.of_nat 3)%Z).
Proof.
  apply likes_accumulate; [| reflexivity | done].
  apply (bool_decide_unpack (NoDup _)). exact I.
Defined.

(** ** The weight rule on weights in kilograms *)

(** X25.  The rule compares the weight itself, not a gain: for every
    pregnancyWeeks from 1 to 40, a weight above 30 exceeds the threshold,
    so "Excessive weight gain" is listed and the riskLevel is not low. *)
Theorem weight_above_thirty_triggers (d : data) (w : Q) (pw : Z) :
  weight d = present w ->
  pregnancyWeeks d = present pw ->
  (1 <= pw <= 40)%Z ->
  (30 < w)%Q ->
  In "Excessive weight gain" (riskFactors (assessRisk d))
  /\ riskLevel (assessRisk d) <> "low".
Proof.
  intros Hw Hpw Hrange Hlt.
  assert (Hex : exceeds_threshold w pw).
  { unfold exceeds_threshold. eapply Qle_lt_trans; [| exact Hlt].
    unfold Qle, Qmult, inject_Z. cbn. lia. }
  assert (Ht : weight_triggers d = true).
  { apply (weight_triggers_iff d w pw Hw Hpw).
    split; [apply (threshold_positive w pw); [lia | done] |].
    split; [lia | done]. }
  split; [by apply weight_factor_iff |].
  rewrite level_by_triggers, Ht. by destruct (_ || _ || _).
Qed.

Lemma weight_above_thirty_triggers_witness :
  let d := mkData (present "110/70") (present 62%Q) (present "active")
                  undefined (present 8%Z) in
  In "Excessive weight gain" (riskFactors (assessRisk d))
  /\ riskLevel (assessRisk d) <> "low".
Proof.
  intros d.
  apply (weight_above_thirty_triggers d 62%Q 8%Z); [done | done | lia | done].
Defined.
